(** * doc/build.py: the documentation build script of interval_dict

    A shallow embedding of [doc/build.py] and the properties of its three
    operations [pip_install], [create_build_env] and [build_docs], and of the
    script's entry point.

    The script is glue around external tools.  The embedding keeps its control
    flow as it is written: a state-and-exception monad threads the module
    global [versions], the outside world, and a log of what the script does
    (lines printed, processes started).  What the outside world answers is a
    parameter, the [platform]. *)

From Stdlib Require Import List String Ascii ZArith NArith Bool Lia Sorted.
Import ListNotations.
Local Open Scope string_scope.

(** ** Python strings and lists *)

Module Py.

(** [str.startswith] and [str.endswith] for a one-character pattern. *)
Definition startswith (s : string) (c : ascii) : bool :=
  match s with
  | String a _ => Ascii.eqb a c
  | EmptyString => false
  end.

Fixpoint endswith (s : string) (c : ascii) : bool :=
  match s with
  | EmptyString => false
  | String a EmptyString => Ascii.eqb a c
  | String _ r => endswith r c
  end.

(** [s.split(sep)]: the pieces between the separators, never an empty list. *)
Fixpoint split (sep : ascii) (s : string) : list string :=
  match s with
  | EmptyString => [EmptyString]
  | String c r =>
      if Ascii.eqb c sep then EmptyString :: split sep r
      else match split sep r with
           | h :: t => String c h :: t
           | [] => [String c EmptyString]
           end
  end.

(** [s.rstrip(c)]. *)
Fixpoint rstrip (c : ascii) (s : string) : string :=
  match s with
  | EmptyString => EmptyString
  | String a r =>
      match rstrip c r with
      | EmptyString => if Ascii.eqb a c then EmptyString else String a EmptyString
      | r' => String a r'
      end
  end.

(** [s == c * len(s)]. *)
Fixpoint all_char (c : ascii) (s : string) : bool :=
  match s with
  | EmptyString => true
  | String a r => Ascii.eqb a c && all_char c r
  end.

(** [sep.join(l)]. *)
Definition str_join (sep : string) (l : list string) : string := String.concat sep l.

(** [c * n]. *)
Fixpoint repeat_char (c : ascii) (n : nat) : string :=
  match n with
  | O => EmptyString
  | S k => String c (repeat_char c k)
  end.

(** [l[-n:]] for [n > 0]. *)
Definition last_n {A} (n : nat) (l : list A) : list A := skipn (List.length l - n) l.

End Py.

(** ** [os.path] on POSIX ([posixpath]) *)

Module Path.

Definition sep : ascii := "/"%char.

Definition isabs (p : string) : bool := Py.startswith p sep.

(** One round of the loop of [posixpath.join]. *)
Definition join2 (path b : string) : string :=
  if Py.startswith b sep then b
  else if (path =? EmptyString) || Py.endswith path sep then path ++ b
  else path ++ "/" ++ b.

(** [os.path.join(a, *p)]. *)
Definition join (a : string) (p : list string) : string := fold_left join2 p a.

(** [os.path.basename(p)]: what follows the last separator. *)
Definition basename (p : string) : string := last (Py.split sep p) EmptyString.

(** [os.path.dirname(p)]: what precedes the last separator, without trailing
    separators unless it consists of separators only. *)
Definition dirname (p : string) : string :=
  match Py.split sep p with
  | [] | [_] => EmptyString
  | comps =>
      let head := Py.str_join "/" (removelast comps) ++ "/" in
      if Py.all_char sep head then head else Py.rstrip sep head
  end.

(** The loop body of [posixpath.normpath]. *)
Definition normpath_step (initial_slashes : nat) (new_comps : list string) (comp : string)
  : list string :=
  if (comp =? EmptyString) || (comp =? ".") then new_comps
  else if negb (comp =? "..")
          || (Nat.eqb initial_slashes 0 && Nat.eqb (List.length new_comps) 0)
          || (negb (Nat.eqb (List.length new_comps) 0) && (last new_comps EmptyString =? ".."))
       then new_comps ++ [comp]
       else removelast new_comps.

(** [os.path.normpath(path)]. *)
Definition normpath (path : string) : string :=
  if path =? EmptyString then "."
  else
    let initial_slashes :=
      if Py.startswith path sep then
        match path with
        | String _ (String b EmptyString) => if Ascii.eqb b sep then 2 else 1
        | String _ (String b (String c _)) =>
            if Ascii.eqb b sep && negb (Ascii.eqb c sep) then 2 else 1
        | _ => 1
        end
      else 0 in
    let comps := fold_left (normpath_step initial_slashes) (Py.split sep path) [] in
    let path' := Py.repeat_char sep initial_slashes ++ Py.str_join "/" comps in
    if path' =? EmptyString then "." else path'.

(** [os.path.abspath(path)], in a process whose working directory is [cwd]. *)
Definition abspath (cwd path : string) : string :=
  if isabs path then normpath path else normpath (join cwd [path]).

End Path.

(** ** [distutils.version.LooseVersion] *)

Module LooseVersion.

Inductive cclass := CDigit | CLower | CDot | COther.

Definition cclass_eqb (a b : cclass) : bool :=
  match a, b with
  | CDigit, CDigit | CLower, CLower | CDot, CDot | COther, COther => true
  | _, _ => false
  end.

Definition classify (c : ascii) : cclass :=
  let n := nat_of_ascii c in
  if Nat.leb 48 n && Nat.leb n 57 then CDigit
  else if Nat.leb 97 n && Nat.leb n 122 then CLower
  else if Nat.eqb n 46 then CDot
  else COther.

(** The pieces [component_re.split] returns, without the empty ones: maximal
    runs of digits, of lower-case letters and of other characters, and every
    dot on its own. *)
Fixpoint runs (s : string) : list (cclass * string) :=
  match s with
  | EmptyString => []
  | String c r =>
      let k := classify c in
      match k, runs r with
      | CDot, rest => (CDot, String c EmptyString) :: rest
      | _, (k', run) :: rest =>
          if cclass_eqb k k' then (k, String c run) :: rest
          else (k, String c EmptyString) :: (k', run) :: rest
      | _, [] => [(k, String c EmptyString)]
      end
  end.

(** [int(obj)] on a run of decimal digits. *)
Definition int_of_digits (s : string) : N :=
  fold_left (fun acc c => (10 * acc + (N_of_ascii c - 48))%N) (list_ascii_of_string s) 0%N.

Inductive component :=
| CInt (n : N)
| CStr (s : string).

(** [LooseVersion(vstring).version]: dots dropped, digit runs read as
    integers, every other run kept as text. *)
Definition parse (vstring : string) : list component :=
  flat_map (fun kr : cclass * string =>
              match fst kr with
              | CDot => []
              | CDigit => [CInt (int_of_digits (snd kr))]
              | _ => [CStr (snd kr)]
              end) (runs vstring).

(** Python's ordering of two component lists; [None] is the [TypeError] of
    comparing an integer with a string. *)
Fixpoint cmp_components (a b : list component) : option comparison :=
  match a, b with
  | [], [] => Some Eq
  | [], _ :: _ => Some Lt
  | _ :: _, [] => Some Gt
  | CInt m :: a', CInt n :: b' =>
      match N.compare m n with
      | Eq => cmp_components a' b'
      | c => Some c
      end
  | CStr s :: a', CStr t :: b' =>
      match String.compare s t with
      | Eq => cmp_components a' b'
      | c => Some c
      end
  | _, _ => None
  end.

(** [LooseVersion(a)._cmp(b)] for a string [b]. *)
Definition cmp (a b : string) : option comparison := cmp_components (parse a) (parse b).

(** [LooseVersion(a) >= b], [LooseVersion(a) < LooseVersion(b)] and
    [LooseVersion(a) <= LooseVersion(b)]. *)
Definition ge (a b : string) : option bool :=
  option_map (fun c => match c with Lt => false | _ => true end) (cmp a b).

Definition lt (a b : string) : option bool :=
  option_map (fun c => match c with Lt => true | _ => false end) (cmp a b).

Definition le (a b : string) : option bool :=
  option_map (fun c => match c with Gt => false | _ => true end) (cmp a b).

End LooseVersion.

(** ** Exceptions, observable events and the outside world *)

Inductive exn :=
| CalledProcessError (returncode : Z) (cmd : list string)
| OSError (errno : Z)
| DistributionNotFound
| TypeError
| IndexError
| SystemExit (code : Z)
| ScriptError (what : string).

(** [errno.ENOENT]. *)
Definition ENOENT : Z := 2.

(** What the script does that can be seen from outside, in order.
    [CheckCall] and [PopenStart] record that [check_call] and [Popen] were
    called with a command line, whether or not the process could be started. *)
Inductive event :=
| Print (line : string)
| CheckCall (argv : list string)
| PopenStart (argv : list string)
| Communicate (argv : list string) (input : string)
| ReadFile (path : string)
| ExecScript (path : string).

(** The answers of the operating system and of the Python installation.
    [W] is the state of everything outside the interpreter (file system,
    installed distributions).  A process that cannot be started
    ([launch_error] gives the errno) does not run, hence does not change [W]. *)
Record platform (W : Type) := {
  launch_error : list string -> W -> option Z;
  run_process : list string -> option string -> W -> Z * W;
  get_distribution_version : string -> W -> option string;
  path_exists : string -> W -> bool;
  read_file : string -> W -> Z + string;
  exec_script : string -> string -> W -> option exn * W;
  scripts_path : W -> string;
  getcwd : W -> string;
  realpath_of_file : W -> string
}.
Arguments launch_error {W}.
Arguments run_process {W}.
Arguments get_distribution_version {W}.
Arguments path_exists {W}.
Arguments read_file {W}.
Arguments exec_script {W}.
Arguments scripts_path {W}.
Arguments getcwd {W}.
Arguments realpath_of_file {W}.

(** The interpreter's state: the module global [versions], the world, and the
    log of events so far (oldest first). *)
Record state (W : Type) := {
  versions : list string;
  world : W;
  log : list event
}.
Arguments versions {W}.
Arguments world {W}.
Arguments log {W}.
Arguments Build_state {W}.

(** [versions = ['0.1.0']] as the module is loaded. *)
Definition initial_versions : list string := ["0.1.0"].

Definition initial_state {W} (w : W) : state W :=
  {| versions := initial_versions; world := w; log := [] |}.

(** ** The monad: state and exceptions *)

Inductive outcome (A : Type) :=
| Return (a : A)
| Raise (e : exn).
Arguments Return {A}.
Arguments Raise {A}.

Definition M (W A : Type) : Type := state W -> outcome A * state W.

Definition ret {W A} (a : A) : M W A := fun s => (Return a, s).

Definition raise {W A} (e : exn) : M W A := fun s => (Raise e, s).

Definition bind {W A B} (m : M W A) (k : A -> M W B) : M W B :=
  fun s =>
    match m s with
    | (Return a, s') => k a s'
    | (Raise e, s') => (Raise e, s')
    end.

(** [try: m except ...: h e]; the handler decides what it catches. *)
Definition try_except {W A} (m : M W A) (h : exn -> M W A) : M W A :=
  fun s =>
    match m s with
    | (Return a, s') => (Return a, s')
    | (Raise e, s') => h e s'
    end.

Declare Scope py_scope.
Delimit Scope py_scope with py.
Notation "x <- m ;; k" := (bind m (fun x => k))
  (at level 61, m at next level, right associativity) : py_scope.
Notation "m ;; k" := (bind m (fun _ => k))
  (at level 61, right associativity) : py_scope.
Local Open Scope py_scope.

Section Primitives.
Context {W : Type} (P : platform W).

Definition emit (e : event) : M W unit :=
  fun s => (Return tt, {| versions := versions s; world := world s; log := log s ++ [e] |}).

Definition set_world (w : W) : M W unit :=
  fun s => (Return tt, {| versions := versions s; world := w; log := log s |}).

Definition get_world : M W W := fun s => (Return (world s), s).

(** Reading the module global [versions]. *)
Definition get_versions : M W (list string) := fun s => (Return (versions s), s).

(** [print(line)]. *)
Definition print (line : string) : M W unit := emit (Print line).

(** [subprocess.check_call(argv)]. *)
Definition check_call (argv : list string) : M W unit :=
  emit (CheckCall argv) ;;
  w <- get_world ;;
  match launch_error P argv w with
  | Some errno => raise (OSError errno)
  | None =>
      let (rc, w') := run_process P argv None w in
      set_world w' ;;
      if (rc =? 0)%Z then ret tt else raise (CalledProcessError rc argv)
  end.

(** [Popen(argv, stdin=PIPE)]: the handle is the command line. *)
Definition Popen (argv : list string) : M W (list string) :=
  emit (PopenStart argv) ;;
  w <- get_world ;;
  match launch_error P argv w with
  | Some errno => raise (OSError errno)
  | None => ret argv
  end.

(** [p.communicate(input=...)] followed by reading [p.returncode]. *)
Definition communicate (p : list string) (input : string) : M W Z :=
  emit (Communicate p input) ;;
  w <- get_world ;;
  let (rc, w') := run_process P p (Some input) w in
  set_world w' ;;
  ret rc.

(** [pkg_resources.get_distribution(name).version]. *)
Definition get_distribution (name : string) : M W string :=
  w <- get_world ;;
  match get_distribution_version P name w with
  | Some v => ret v
  | None => raise DistributionNotFound
  end.

(** A [LooseVersion] comparison, which raises [TypeError] on mixed components. *)
Definition compare_versions (r : option bool) : M W bool :=
  match r with
  | Some b => ret b
  | None => raise TypeError
  end.

End Primitives.

(** ** The script *)

(** The double quote and the line feed, for the Doxygen configuration. *)
Definition dquote : string := String (ascii_of_nat 34) EmptyString.
Definition newline : string := String (ascii_of_nat 10) EmptyString.

(** The text piped to [doxygen -]: [cmd_str] of [build_docs]. *)
Definition doxygen_config (include_dir doxyxml_dir : string) : string :=
  Py.str_join newline
    [ EmptyString;
      "      PROJECT_NAME      = interval_dict";
      "      EXAMPLE_PATH      = " ++ include_dir ++ "/../..";
      "      GENERATE_LATEX    = NO";
      "      GENERATE_MAN      = NO";
      "      GENERATE_RTF      = NO";
      "      CASE_SENSE_NAMES  = NO";
      "      INPUT             = " ++ include_dir ++ "/bi_intervaldict.h \";
      "                          " ++ include_dir ++ "/bi_intervaldicticl.h \";
      "                          " ++ include_dir ++ "/config.h.in \";
      "                          " ++ include_dir ++ "/gregorian.h \";
      "                          " ++ include_dir ++ "/icl_interval_map_adaptor.h \";
      "                          " ++ include_dir ++ "/intervaldict.h \";
      "                          " ++ include_dir ++ "/intervaldicticl.h \";
      "                          " ++ include_dir ++ "/rebase_implementation.h \";
      "                          " ++ include_dir ++ "/interval_traits.h \";
      "                          " ++ include_dir ++ "/ptime.h";
      "      QUIET             = YES";
      "      JAVADOC_AUTOBRIEF = YES";
      "      AUTOLINK_SUPPORT  = NO";
      "      GENERATE_HTML     = NO";
      "      GENERATE_XML      = YES";
      "      XML_OUTPUT        = " ++ doxyxml_dir;
      "      ALIASES           = " ++ dquote ++ "rst=\verbatim embed:rst" ++ dquote;
      "      ALIASES          += " ++ dquote ++ "endrst=\endverbatim" ++ dquote;
      "      MACRO_EXPANSION   = YES";
      "    " ].

(** [reversed(versions[-3:])]: what the version picker is built from. *)
Definition main_versions (versions : list string) : list string :=
  rev (Py.last_n 3 versions).

(** The identifier [pip_install] hands to pip: rewritten [if commit:], that
    is unless [commit] is [None] or the empty string. *)
Definition resolved_package (package : string) (commit : option string) : string :=
  match commit with
  | Some (String _ _ as c) => "git+https://github.com/" ++ package ++ ".git@" ++ c
  | _ => package
  end.

(** The keyword arguments of [build_docs]; [None] is an absent key. *)
Record kwargs := {
  kw_doc_dir : option string;
  kw_work_dir : option string;
  kw_include_dir : option string
}.

Definition no_kwargs : kwargs :=
  {| kw_doc_dir := None; kw_work_dir := None; kw_include_dir := None |}.

(** The command line of the render step. *)
Definition sphinx_argv (cwd doc_dir doxyxml_dir html_dir version : string)
    (versions : list string) : list string :=
  [ "sphinx-build";
    "-Dbreathe_projects.format=" ++ Path.abspath cwd doxyxml_dir;
    "-Dversion=" ++ version; "-Drelease=" ++ version;
    "-Aversion=" ++ version;
    "-Aversions=" ++ Py.str_join "," (main_versions versions);
    "-b"; "html"; doc_dir; html_dir ].

(** The command line of the styling step. *)
Definition lessc_argv (doc_dir html_dir : string) : list string :=
  [ "lessc"; "--clean-css";
    "--include-path=" ++ Path.join doc_dir ["bootstrap"];
    Path.join doc_dir ["interval_dict.less"];
    Path.join html_dir ["_static"; "interval_dict.css"] ].

Definition lessc_hint : string :=
  "lessc not found; make sure that Less (http://lesscss.org/) " ++ "is installed".

Section Script.
Context {W : Type} (P : platform W).

(** [open(path)] followed by [f.read()]. *)
Definition open_read (path : string) : M W string :=
  emit (ReadFile path) ;;
  w <- get_world ;;
  match read_file P path w with
  | inl errno => raise (OSError errno)
  | inr text => ret text
  end.

(** [exec(source, dict(__file__=path))]: the script runs with globals of its
    own, and acts on the world only. *)
Definition exec (source path : string) : M W unit :=
  emit (ExecScript path) ;;
  w <- get_world ;;
  let (r, w') := exec_script P source path w in
  set_world w' ;;
  match r with
  | Some e => raise e
  | None => ret tt
  end.

(** The [if min_version:] block of [pip_install]; the result tells whether
    the function has returned from inside it.  The test is false for [None]
    and for the empty string. *)
Definition already_installed (package : string) (min_version : option string) : M W bool :=
  match min_version with
  | Some (String _ _ as min_version) =>
      try_except
        (installed_version <- get_distribution P (Path.basename package) ;;
         b <- compare_versions (LooseVersion.ge installed_version min_version) ;;
         if b : bool then
           print (package ++ " " ++ min_version ++ " already installed") ;;
           ret true
         else ret false)
        (fun e => match e with
                  | DistributionNotFound => ret false
                  | _ => raise e
                  end)
  | _ => ret false
  end.

Definition pip_install (package : string) (commit min_version : option string) : M W unit :=
  returned <- already_installed package min_version ;;
  if returned : bool then ret tt
  else
    let package := resolved_package package commit in
    print ("Installing " ++ package) ;;
    check_call P ["pip"; "install"; package].

Definition create_build_env (dirname : string) : M W unit :=
  w <- get_world ;;
  (if path_exists P dirname w then ret tt else check_call P ["virtualenv"; dirname]) ;;
  w <- get_world ;;
  let scripts_dir := Path.basename (scripts_path P w) in
  let activate_this_file := Path.join dirname [scripts_dir; "activate_this.py"] in
  source <- open_read activate_this_file ;;
  exec source activate_this_file ;;
  pip_version <- get_distribution P "pip" ;;
  old_pip <- compare_versions (LooseVersion.lt pip_version "1.5.4") ;;
  (if old_pip : bool then
     print "Updating pip" ;;
     check_call P ["pip"; "install"; "--upgrade"; "pip"]
   else ret tt) ;;
  try_except
    (distribute_version <- get_distribution P "distribute" ;;
     old_distribute <- compare_versions (LooseVersion.le distribute_version "0.6.24") ;;
     if old_distribute : bool then
       print "Updating distribute" ;;
       check_call P ["pip"; "install"; "--upgrade"; "distribute"]
     else ret tt)
    (fun e => match e with
              | DistributionNotFound => ret tt
              | _ => raise e
              end) ;;
  pip_install "breathe" None (Some "4.15.0") ;;
  pip_install "sphinx" None (Some "3.1.0").

(** The [try] around the styling step of [build_docs]. *)
Definition run_lessc (doc_dir html_dir : string) : M W unit :=
  try_except
    (check_call P (lessc_argv doc_dir html_dir))
    (fun e => match e with
              | OSError errno =>
                  if negb (errno =? ENOENT)%Z then raise e
                  else print lessc_hint ;; raise (SystemExit 1)
              | _ => raise e
              end).

Definition build_docs (sphinx_executable version : string) (kw : kwargs) : M W string :=
  w <- get_world ;;
  let doc_dir :=
    match kw_doc_dir kw with
    | Some d => d
    | None => Path.dirname (realpath_of_file P w)
    end in
  let work_dir := match kw_work_dir kw with Some d => d | None => "." end in
  let include_dir :=
    match kw_include_dir kw with
    | Some d => d
    | None => Path.join (Path.dirname doc_dir) ["include"; "interval_dict"]
    end in
  let cmd := ["doxygen"; "-"] in
  p <- Popen P cmd ;;
  let doxyxml_dir := Path.join doc_dir ["doxyxml"] in
  let cmd_str := doxygen_config include_dir doxyxml_dir in
  returncode <- communicate P p cmd_str ;;
  (if negb (returncode =? 0)%Z then raise (CalledProcessError returncode cmd) else ret tt) ;;
  let html_dir := Path.join work_dir ["html"] in
  versions <- get_versions ;;
  w <- get_world ;;
  check_call P (sphinx_argv (getcwd P w) doc_dir doxyxml_dir html_dir version versions) ;;
  run_lessc doc_dir html_dir ;;
  ret html_dir.

(** [sys.argv[i]]. *)
Definition sys_argv (argv : list string) (i : nat) : M W string :=
  match nth_error argv i with
  | Some a => ret a
  | None => raise IndexError
  end.

(** The [if __name__ == '__main__':] block, for a process started with the
    command line [argv] (the script's name first). *)
Definition main (argv : list string) : M W unit :=
  create_build_env "virtualenv" ;;
  sphinx_executable <- sys_argv argv 1 ;;
  version <- sys_argv argv 2 ;;
  build_docs sphinx_executable version no_kwargs ;;
  ret tt.

End Script.

(** The exit status of the interpreter for the outcome of [main]. *)
Definition exit_status {A} (o : outcome A) : Z :=
  match o with
  | Return _ => 0
  | Raise (SystemExit code) => code
  | Raise _ => 1
  end.

(** The events a computation adds to the log. *)
Definition trace {W A} (m : M W A) (s : state W) : list event :=
  skipn (List.length (log s)) (log (snd (m s))).

(** ** The values [build_docs] computes before it starts any process *)

Section BuildDocsValues.
Context {W : Type} (P : platform W).

Definition doc_dir_of (kw : kwargs) (w : W) : string :=
  match kw_doc_dir kw with
  | Some d => d
  | None => Path.dirname (realpath_of_file P w)
  end.

Definition work_dir_of (kw : kwargs) : string :=
  match kw_work_dir kw with Some d => d | None => "." end.

Definition include_dir_of (kw : kwargs) (w : W) : string :=
  match kw_include_dir kw with
  | Some d => d
  | None => Path.join (Path.dirname (doc_dir_of kw w)) ["include"; "interval_dict"]
  end.

Definition doxyxml_dir_of (kw : kwargs) (w : W) : string :=
  Path.join (doc_dir_of kw w) ["doxyxml"].

Definition html_dir_of (kw : kwargs) : string := Path.join (work_dir_of kw) ["html"].

Definition doxygen_cmd : list string := ["doxygen"; "-"].

Definition doxygen_input (kw : kwargs) (w : W) : string :=
  doxygen_config (include_dir_of kw w) (doxyxml_dir_of kw w).

(** The render command line of a run that starts in world [w] and reaches the
    render step in world [w1] with the global [versions] equal to [vs]. *)
Definition render_cmd (kw : kwargs) (version : string) (vs : list string) (w w1 : W)
  : list string :=
  sphinx_argv (getcwd P w1) (doc_dir_of kw w) (doxyxml_dir_of kw w) (html_dir_of kw)
    version vs.

Definition lessc_cmd (kw : kwargs) (w : W) : list string :=
  lessc_argv (doc_dir_of kw w) (html_dir_of kw).

End BuildDocsValues.

(** ** Notions the properties are stated with *)

(** A run skips installation when it returns normally and has started no
    process; it performs the installation of [id] when it runs
    [pip install id]. *)
Definition skips_installation {W} (m : M W unit) (s : state W) : Prop :=
  fst (m s) = Return tt /\ forall argv, ~ In (CheckCall argv) (trace m s).

Definition performs_installation {W} (m : M W unit) (s : state W) (id : string) : Prop :=
  In (CheckCall ["pip"; "install"; id]) (trace m s).

(** A computation that leaves the module global [versions] as it found it. *)
Definition keeps_versions {W A} (m : M W A) : Prop :=
  forall s, versions (snd (m s)) = versions s.

(** Oldest to newest: under [LooseVersion], every entry is at most the next
    one; newest to oldest is the converse. *)
Definition oldest_to_newest (l : list string) : Prop :=
  Sorted (fun a b => LooseVersion.le a b = Some true) l.

Definition newest_to_oldest (l : list string) : Prop :=
  Sorted (fun a b => LooseVersion.le b a = Some true) l.

(** ** Sequences of operations *)

Section Operations.
Context {W : Type} (P : platform W).

(** The operations of the module, and sequences of them run one after the
    other from a state, whatever each one's outcome. *)
Inductive operation :=
| PipInstall (package : string) (commit min_version : option string)
| CreateBuildEnv (dirname : string)
| BuildDocs (sphinx_executable version : string) (kw : kwargs)
| Main (argv : list string).

Definition perform (op : operation) (s : state W) : state W :=
  match op with
  | PipInstall package commit min_version =>
      snd (pip_install P package commit min_version s)
  | CreateBuildEnv dirname => snd (create_build_env P dirname s)
  | BuildDocs sphinx_executable version kw =>
      snd (build_docs P sphinx_executable version kw s)
  | Main argv => snd (main P argv s)
  end.

Definition perform_all (ops : list operation) (s : state W) : state W :=
  fold_left (fun s op => perform op s) ops s.

End Operations.

(** ** The parts of [create_build_env] *)

Section BuildEnvParts.
Context {W : Type} (P : platform W).

(** Lines 29-30: the virtualenv is created when [dirname] does not exist. *)
Definition make_env (dirname : string) : M W unit :=
  w <- get_world ;;
  if path_exists P dirname w then ret tt else check_call P ["virtualenv"; dirname].

(** The path of the activation script (lines 32-33). *)
Definition activate_this_file_of (dirname : string) (w : W) : string :=
  Path.join dirname [Path.basename (scripts_path P w); "activate_this.py"].

(** Lines 31-35: the activation script is read and executed. *)
Definition activate_env (dirname : string) : M W unit :=
  w <- get_world ;;
  let scripts_dir := Path.basename (scripts_path P w) in
  let activate_this_file := Path.join dirname [scripts_dir; "activate_this.py"] in
  source <- open_read P activate_this_file ;;
  exec P source activate_this_file.

(** Lines 41-44: pip is upgraded when older than 1.5.4. *)
Definition upgrade_pip : M W unit :=
  pip_version <- get_distribution P "pip" ;;
  old_pip <- compare_versions (LooseVersion.lt pip_version "1.5.4") ;;
  if old_pip : bool then
    print "Updating pip" ;;
    check_call P ["pip"; "install"; "--upgrade"; "pip"]
  else ret tt.

(** Lines 46-52: distribute is upgraded when installed and at most 0.6.24. *)
Definition upgrade_distribute : M W unit :=
  try_except
    (distribute_version <- get_distribution P "distribute" ;;
     old_distribute <- compare_versions (LooseVersion.le distribute_version "0.6.24") ;;
     if old_distribute : bool then
       print "Updating distribute" ;;
       check_call P ["pip"; "install"; "--upgrade"; "distribute"]
     else ret tt)
    (fun e => match e with
              | DistributionNotFound => ret tt
              | _ => raise e
              end).

(** Lines 54-56. *)
Definition install_doc_tools : M W unit :=
  pip_install P "breathe" None (Some "4.15.0") ;;
  pip_install P "sphinx" None (Some "3.1.0").

(** Lines 41-56: everything after the activation. *)
Definition install_tools : M W unit :=
  upgrade_pip ;; upgrade_distribute ;; install_doc_tools.

End BuildEnvParts.

(** A computation that only adds to the log. *)
Definition appends {W A} (m : M W A) : Prop :=
  forall s, exists t, log (snd (m s)) = (log s ++ t)%list.

(** The events of a full run of [build_docs], in the order of the code. *)
Definition build_docs_steps {W} (P : platform W) (kw : kwargs) (version : string)
    (vs : list string) (w w1 : W) : list event :=
  [PopenStart doxygen_cmd;
   Communicate doxygen_cmd (doxygen_input P kw w);
   CheckCall (render_cmd P kw version vs w w1);
   CheckCall (lessc_cmd P kw w);
   Print lessc_hint].

(** ** A concrete platform, for running the script *)

Module Demo.

(** A toy world: the paths that exist and the installed distributions. *)
Record world := {
  files : list string;
  dists : list (string * string)
}.

Fixpoint lookup (name : string) (l : list (string * string)) : option string :=
  match l with
  | [] => None
  | (k, v) :: r => if k =? name then Some v else lookup name r
  end.

Definition touch (p : string) (w : world) : world :=
  {| files := p :: files w; dists := dists w |}.

(** [lessc_errno]: why [lessc] cannot be started, if it cannot;
    [doxygen_rc]: the exit status of [doxygen].  Everything else succeeds:
    [virtualenv] creates its directory and [sphinx-build] its output
    directory (its last argument). *)
Definition platform (lessc_errno : option Z) (doxygen_rc : Z) : platform world := {|
  launch_error := fun argv _ =>
    if hd EmptyString argv =? "lessc" then lessc_errno else None;
  run_process := fun argv _ w =>
    let prog := hd EmptyString argv in
    if prog =? "doxygen" then (doxygen_rc, w)
    else if (prog =? "virtualenv") || (prog =? "sphinx-build")
    then (0%Z, touch (last argv EmptyString) w)
    else (0%Z, w);
  get_distribution_version := fun name w => lookup name (dists w);
  path_exists := fun p w => existsb (String.eqb p) (files w);
  read_file := fun _ _ => inr EmptyString;
  exec_script := fun _ _ w => (None, w);
  scripts_path := fun _ => "/usr/local/bin";
  getcwd := fun _ => "/home/user/interval_dict/doc";
  realpath_of_file := fun _ => "/home/user/interval_dict/doc/build.py"
|}.

(** A machine with a recent pip and the documentation tools installed. *)
Definition ready : world :=
  {| files := [];
     dists := [("pip", "20.0.2"); ("breathe", "4.15.0"); ("sphinx", "3.1.0")] |}.

(** A machine with pip only. *)
Definition bare : world := {| files := []; dists := [("pip", "20.0.2")] |}.

End Demo.

(** ** A concrete platform on which chosen steps fail *)

Module Faulty.

(** [rc_of]: the exit status of a program, by name; [errno_of]: why a
    program cannot be started, if it cannot; [script_errno]: why the
    activation script cannot be opened, if it cannot. *)
Record faults := {
  rc_of : string -> Z;
  errno_of : string -> option Z;
  script_errno : option Z
}.

(** As [Demo.platform], with the faults: a program that exits with status 0
    does what it does there, one that fails leaves the world as it is. *)
Definition platform (f : faults) : platform Demo.world := {|
  launch_error := fun argv _ => errno_of f (hd EmptyString argv);
  run_process := fun argv _ w =>
    let prog := hd EmptyString argv in
    let rc := rc_of f prog in
    if (rc =? 0)%Z && ((prog =? "virtualenv") || (prog =? "sphinx-build"))
    then (rc, Demo.touch (last argv EmptyString) w)
    else (rc, w);
  get_distribution_version := fun name w => Demo.lookup name (Demo.dists w);
  path_exists := fun p w => existsb (String.eqb p) (Demo.files w);
  read_file := fun _ _ =>
    match script_errno f with
    | Some errno => inl errno
    | None => inr EmptyString
    end;
  exec_script := fun _ _ w => (None, w);
  scripts_path := fun _ => "/usr/local/bin";
  getcwd := fun _ => "/home/user/interval_dict/doc";
  realpath_of_file := fun _ => "/home/user/interval_dict/doc/build.py"
|}.

(** The program [prog] exits with status [rc]; everything else succeeds. *)
Definition exits (prog : string) (rc : Z) : faults :=
  {| rc_of := fun p => if p =? prog then rc else 0%Z;
     errno_of := fun _ => None;
     script_errno := None |}.

(** The program [prog] cannot be started. *)
Definition cannot_start (prog : string) (errno : Z) : faults :=
  {| rc_of := fun _ => 0%Z;
     errno_of := fun p => if p =? prog then Some errno else None;
     script_errno := None |}.

(** The activation script cannot be opened. *)
Definition no_script (errno : Z) : faults :=
  {| rc_of := fun _ => 0%Z; errno_of := fun _ => None; script_errno := Some errno |}.

(** A machine with the given distributions and an existing virtualenv
    directory. *)
Definition with_env (dists : list (string * string)) : Demo.world :=
  {| Demo.files := ["virtualenv"]; Demo.dists := dists |}.

End Faulty.

(** * Properties *)

(** ** The library models on examples *)

Example basename_ex : Path.basename "fmtlib/fmt" = "fmt". Proof. reflexivity. Qed.
Example dirname_ex : Path.dirname "/a/b/doc" = "/a/b". Proof. reflexivity. Qed.
Example dirname_ex2 : Path.dirname "//x" = "//". Proof. reflexivity. Qed.
Example join_ex : Path.join "." ["html"] = "./html". Proof. reflexivity. Qed.
Example normpath_ex : Path.normpath "/a/./b/../c//d" = "/a/c/d". Proof. reflexivity. Qed.
Example normpath_ex2 : Path.normpath "../a/../../b" = "../../b". Proof. reflexivity. Qed.
Example parse_ex : LooseVersion.parse "1.5.4-rc1" =
  [LooseVersion.CInt 1; LooseVersion.CInt 5; LooseVersion.CInt 4;
   LooseVersion.CStr "-"; LooseVersion.CStr "rc"; LooseVersion.CInt 1].
Proof. reflexivity. Qed.
Example ge_ex1 : LooseVersion.ge "4.15.0" "4.15.0" = Some true. Proof. reflexivity. Qed.
Example ge_ex2 : LooseVersion.ge "4.14.9" "4.15.0" = Some false. Proof. reflexivity. Qed.
Example ge_ex3 : LooseVersion.ge "4.a" "4.15.0" = None. Proof. reflexivity. Qed.

(** ** Reasoning about runs *)

Lemma skipn_length_app {A} (l t : list A) : skipn (List.length l) (l ++ t) = t.
Proof. induction l as [|a l IH]; [reflexivity | exact IH]. Qed.

Lemma skipn_length_self {A} (l : list A) : skipn (List.length l) l = [].
Proof. induction l as [|a l IH]; [reflexivity | exact IH]. Qed.

(** Unfolding the monad and the primitives, and nothing of the data. *)
Ltac run :=
  cbv beta iota zeta delta
    [bind ret raise try_except emit set_world get_world get_versions print
     check_call Popen communicate get_distribution compare_versions
     open_read exec sys_argv];
  cbn [versions world log fst snd].

(** ** The extraction step *)

(** C5: if doxygen exits with a non-zero status, build_docs raises
    CalledProcessError for the doxygen command with that status, and the run
    has started no process through check_call: sphinx-build is never invoked. *)
Theorem doxygen_failure_prevents_render {W} (P : platform W) (s : state W)
    (sphinx_executable version : string) (kw : kwargs) (rc : Z) (w1 : W) :
  launch_error P doxygen_cmd (world s) = None ->
  run_process P doxygen_cmd (Some (doxygen_input P kw (world s))) (world s) = (rc, w1) ->
  rc <> 0%Z ->
  build_docs P sphinx_executable version kw s =
    (Raise (CalledProcessError rc doxygen_cmd),
     {| versions := versions s; world := w1;
        log := log s ++ [PopenStart doxygen_cmd;
                         Communicate doxygen_cmd (doxygen_input P kw (world s))] |})
  /\ forall argv, ~ In (CheckCall argv) (trace (build_docs P sphinx_executable version kw) s).
Proof.
  intros Hlaunch Hrun Hrc.
  assert (Hrun' : build_docs P sphinx_executable version kw s =
    (Raise (CalledProcessError rc doxygen_cmd),
     {| versions := versions s; world := w1;
        log := log s ++ [PopenStart doxygen_cmd;
                         Communicate doxygen_cmd (doxygen_input P kw (world s))] |})).
  { unfold build_docs, doxygen_input, doxygen_cmd, include_dir_of, doxyxml_dir_of, doc_dir_of in *.
    run. rewrite Hlaunch. run. rewrite Hrun. run.
    apply Z.eqb_neq in Hrc. rewrite Hrc. cbn [negb]. run.
    rewrite <- app_assoc. reflexivity. }
  split; [exact Hrun'|].
  intros argv Hin. unfold trace in Hin. rewrite Hrun' in Hin.
  cbn [snd log] in Hin. rewrite skipn_length_app in Hin.
  destruct Hin as [H | [H | []]]; discriminate H.
Qed.

(** Case analysis on what the platform answers next. *)
Ltac ask_platform :=
  match goal with
  | |- context [launch_error ?P ?a ?w] =>
      destruct (launch_error P a w) eqn:?
  | |- context [run_process ?P ?a ?i ?w] =>
      destruct (run_process P a i w) as [? ?] eqn:?
  | |- context [get_distribution_version ?P ?n ?w] =>
      destruct (get_distribution_version P n w) eqn:?
  | |- context [path_exists ?P ?n ?w] =>
      destruct (path_exists P n w) eqn:?
  | |- context [read_file ?P ?n ?w] =>
      destruct (read_file P n w) eqn:?
  | |- context [exec_script ?P ?a ?b ?w] =>
      destruct (exec_script P a b w) as [[?|] ?] eqn:?
  | |- context [(?rc =? 0)%Z] =>
      destruct (rc =? 0)%Z eqn:?
  | |- context [negb (?e =? ENOENT)%Z] =>
      destruct (e =? ENOENT)%Z eqn:?
  | |- context [match ?e with CalledProcessError _ _ => _ | _ => _ end] =>
      is_var e; destruct e
  end; run; cbn [negb].

(** ** Paths *)

Lemma isabs_app (a b : string) : Path.isabs a = true -> Path.isabs (a ++ b) = true.
Proof. destruct a; [discriminate | intro H; exact H]. Qed.

Lemma isabs_join2 (a b : string) :
  Path.isabs a = true -> Path.isabs (Path.join2 a b) = true.
Proof.
  intro Ha. unfold Path.join2.
  destruct (Py.startswith b Path.sep) eqn:Hb; [exact Hb|].
  destruct ((a =? EmptyString) || Py.endswith a Path.sep); now apply isabs_app.
Qed.

Lemma isabs_normpath (p : string) :
  Path.isabs p = true -> Path.isabs (Path.normpath p) = true.
Proof.
  intro Hp. unfold Path.normpath.
  destruct p as [|a p]; [discriminate|].
  cbn [String.eqb]. unfold Path.isabs in Hp. rewrite Hp.
  destruct p as [|b [|c p]];
    repeat match goal with
           | |- context [if ?x then 2 else 1] => destruct x
           end; reflexivity.
Qed.

Lemma isabs_abspath (cwd p : string) :
  Path.isabs cwd = true -> Path.isabs (Path.abspath cwd p) = true.
Proof.
  intro Hcwd. unfold Path.abspath.
  destruct (Path.isabs p) eqn:Hp.
  - now apply isabs_normpath.
  - apply isabs_normpath. cbn [Path.join fold_left]. now apply isabs_join2.
Qed.

(** Joining a relative name keeps the kind of the directory. *)
Lemma isabs_join_html (work_dir : string) :
  Path.isabs (Path.join work_dir ["html"]) = Path.isabs work_dir.
Proof.
  cbn [Path.join fold_left]. unfold Path.join2. cbn [Py.startswith Ascii.eqb].
  cbn.
  destruct work_dir as [|a r]; [reflexivity|].
  cbn [String.eqb orb].
  destruct (Py.endswith (String a r) Path.sep); reflexivity.
Qed.

(** ** The entry point *)

Lemma main_after_env {W} (P : platform W) (argv0 sphinx_executable version : string)
    (rest : list string) (s0 s : state W) :
  create_build_env P "virtualenv" s0 = (Return tt, s) ->
  main P (argv0 :: sphinx_executable :: version :: rest) s0 =
    match build_docs P sphinx_executable version no_kwargs s with
    | (Return _, s') => (Return tt, s')
    | (Raise e, s') => (Raise e, s')
    end.
Proof.
  intro Henv. unfold main. unfold bind at 1. rewrite Henv.
  cbn [sys_argv nth_error]. unfold bind, ret.
  destruct (build_docs P sphinx_executable version no_kwargs s) as [[p|e] s']; reflexivity.
Qed.

(** The parameter [sphinx_executable] of [build_docs] is not used. *)
Lemma build_docs_ignores_executable {W} (P : platform W) (exe1 exe2 version : string)
    (kw : kwargs) :
  build_docs P exe1 version kw = build_docs P exe2 version kw.
Proof. reflexivity. Qed.

(** ** The styling step *)

(** C4: when doxygen and sphinx-build have succeeded and lessc cannot be
    started, then: if the reason is ENOENT, the lessc hint is printed and
    SystemExit(1) is raised, which gives exit status 1; for any other reason
    the OSError is raised as it is, with nothing printed.  In both cases the
    world is the one sphinx-build left (the html directory is not touched). *)
Theorem lessc_launch_failure {W} (P : platform W) (s : state W)
    (sphinx_executable version : string) (kw : kwargs) (w1 w2 : W) (errno : Z) :
  launch_error P doxygen_cmd (world s) = None ->
  run_process P doxygen_cmd (Some (doxygen_input P kw (world s))) (world s) = (0%Z, w1) ->
  launch_error P (render_cmd P kw version (versions s) (world s) w1) w1 = None ->
  run_process P (render_cmd P kw version (versions s) (world s) w1) None w1 = (0%Z, w2) ->
  launch_error P (lessc_cmd P kw (world s)) w2 = Some errno ->
  let r := build_docs P sphinx_executable version kw s in
  let steps := [PopenStart doxygen_cmd;
                Communicate doxygen_cmd (doxygen_input P kw (world s));
                CheckCall (render_cmd P kw version (versions s) (world s) w1);
                CheckCall (lessc_cmd P kw (world s))] in
  (errno = ENOENT ->
     r = (Raise (SystemExit 1),
          {| versions := versions s; world := w2;
             log := log s ++ steps ++ [Print lessc_hint] |})
     /\ exit_status (fst r) = 1%Z)
  /\ (errno <> ENOENT ->
     r = (Raise (OSError errno),
          {| versions := versions s; world := w2; log := log s ++ steps |})).
Proof.
  intros Hdox Hdoxrun Hsphinx Hsphinxrun Hlessc r steps.
  subst r steps.
  unfold build_docs, run_lessc, doxygen_input, doxygen_cmd, render_cmd, lessc_cmd,
    include_dir_of, doxyxml_dir_of, html_dir_of, work_dir_of, doc_dir_of in *.
  run. rewrite Hdox. run. rewrite Hdoxrun. run. cbn [Z.eqb negb]. run.
  rewrite Hsphinx. run. rewrite Hsphinxrun. run. cbn [Z.eqb]. run.
  rewrite Hlessc. run.
  split.
  - intros ->. cbn [Z.eqb ENOENT Pos.eqb negb]. run.
    rewrite <- !app_assoc. cbn [app exit_status fst]. split; reflexivity.
  - intro Hne. apply Z.eqb_neq in Hne. rewrite Hne. cbn [negb]. run.
    rewrite <- !app_assoc. reflexivity.
Qed.

(** ** What [build_docs] returns *)

(** C6 (amended): whenever build_docs returns, the value is
    os.path.join(work_dir, 'html'), where work_dir is the keyword argument or
    '.'; that path is absolute exactly when work_dir is, and with the default
    work_dir it is the relative path './html'. *)
Theorem build_docs_returns_joined_html_dir {W} (P : platform W) (s : state W)
    (sphinx_executable version : string) (kw : kwargs) (p : string) :
  fst (build_docs P sphinx_executable version kw s) = Return p ->
  p = Path.join (work_dir_of kw) ["html"]
  /\ Path.isabs p = Path.isabs (work_dir_of kw)
  /\ (kw_work_dir kw = None -> p = "./html").
Proof.
  intro Hret.
  assert (Hp : p = Path.join (work_dir_of kw) ["html"]).
  { revert Hret. unfold build_docs, run_lessc, work_dir_of. run.
    repeat ask_platform; cbn [fst]; intro H; try discriminate H;
      now injection H as <-. }
  split; [exact Hp|]. split.
  - rewrite Hp. apply isabs_join_html.
  - intro Hdefault. rewrite Hp. unfold work_dir_of. rewrite Hdefault. reflexivity.
Qed.

(** ** The render step *)

(** Every process a run of [build_docs] starts through [check_call] is the
    render command or the styling command. *)
Lemma build_docs_check_calls {W} (P : platform W) (s : state W)
    (sphinx_executable version : string) (kw : kwargs) (argv : list string) :
  In (CheckCall argv) (trace (build_docs P sphinx_executable version kw) s) ->
  (exists w1, argv = render_cmd P kw version (versions s) (world s) w1)
  \/ argv = lessc_cmd P kw (world s).
Proof.
  unfold trace, build_docs, run_lessc, render_cmd, lessc_cmd,
    doxyxml_dir_of, html_dir_of, work_dir_of, doc_dir_of.
  run.
  repeat ask_platform; cbn [snd log]; rewrite <- ?app_assoc;
    rewrite skipn_length_app; cbn [app In]; intro H;
    repeat match goal with
           | H : _ \/ _ |- _ => destruct H as [H | H]
           | H : False |- _ => destruct H
           | H : CheckCall _ = CheckCall _ |- _ => injection H as <-
           | H : _ = CheckCall _ |- _ => discriminate H
           end;
    first [ left; eexists; reflexivity | right; reflexivity ].
Qed.

(** C10: when the working directory the system reports is absolute, the
    [-Dbreathe_projects.format=] argument of every sphinx-build command line
    that build_docs runs is the abspath of the doxyxml directory and starts
    with a slash, whatever doc_dir is. *)
Theorem breathe_source_is_absolute {W} (P : platform W) (s : state W)
    (sphinx_executable version : string) (kw : kwargs) (argv : list string) :
  (forall w, Path.isabs (getcwd P w) = true) ->
  In (CheckCall argv) (trace (build_docs P sphinx_executable version kw) s) ->
  hd EmptyString argv = "sphinx-build" ->
  exists w1 : W,
    let p := Path.abspath (getcwd P w1) (Path.join (doc_dir_of P kw (world s)) ["doxyxml"]) in
    nth 1 argv EmptyString = "-Dbreathe_projects.format=" ++ p
    /\ Path.isabs p = true.
Proof.
  intros Hcwd Hin Hhd.
  destruct (build_docs_check_calls P s sphinx_executable version kw argv Hin)
    as [[w1 ->] | ->].
  - exists w1. split; [reflexivity | apply isabs_abspath, Hcwd].
  - discriminate Hhd.
Qed.

(** C8: with the known-versions list ['0.1.0'] and version 'dev', once
    doxygen has exited with status 0 the run starts sphinx-build with
    -Dversion=dev, -Drelease=dev (and -Aversion=dev) and -Aversions=0.1.0. *)
Theorem render_step_for_dev {W} (P : platform W) (s : state W)
    (sphinx_executable : string) (kw : kwargs) (w1 : W) :
  versions s = ["0.1.0"] ->
  launch_error P doxygen_cmd (world s) = None ->
  run_process P doxygen_cmd (Some (doxygen_input P kw (world s))) (world s) = (0%Z, w1) ->
  exists breathe_source doc_dir html_dir : string,
    In (CheckCall ["sphinx-build"; breathe_source;
                   "-Dversion=dev"; "-Drelease=dev"; "-Aversion=dev";
                   "-Aversions=0.1.0"; "-b"; "html"; doc_dir; html_dir])
       (trace (build_docs P sphinx_executable "dev" kw) s).
Proof.
  intros Hvs Hdox Hdoxrun.
  exists ("-Dbreathe_projects.format=" ++
          Path.abspath (getcwd P w1) (doxyxml_dir_of P kw (world s))),
    (doc_dir_of P kw (world s)), (html_dir_of kw).
  unfold trace, build_docs, run_lessc, doxygen_input, doxygen_cmd,
    include_dir_of, doxyxml_dir_of, html_dir_of, work_dir_of, doc_dir_of in *.
  run. rewrite Hdox. run. rewrite Hdoxrun. run. cbn [Z.eqb negb]. run.
  rewrite Hvs.
  repeat ask_platform; cbn [snd log]; rewrite <- ?app_assoc;
    rewrite skipn_length_app; cbn [app In]; right; right; left; reflexivity.
Qed.

(** ** The installer *)

(** What the [if min_version:] block does, by what is installed. *)
Lemma already_installed_cases {W} (P : platform W) (s : state W) (package : string)
    (c : ascii) (r : string) :
  let min_version := String c r in
  already_installed P package (Some min_version) s =
    match get_distribution_version P (Path.basename package) (world s) with
    | None => (Return false, s)
    | Some installed =>
        match LooseVersion.ge installed min_version with
        | None => (Raise TypeError, s)
        | Some false => (Return false, s)
        | Some true =>
            (Return true,
             {| versions := versions s; world := world s;
                log := log s ++ [Print (package ++ " " ++ min_version ++ " already installed")] |})
        end
    end.
Proof.
  intro min_version. subst min_version. unfold already_installed. run.
  destruct (get_distribution_version P (Path.basename package) (world s)) as [installed|];
    [|reflexivity].
  run.
  destruct (LooseVersion.ge installed (String c r)) as [[|]|]; reflexivity.
Qed.

(** What [pip_install] does once the [if min_version:] block has not returned. *)
Lemma pip_install_proceeds {W} (P : platform W) (s : state W) (package : string)
    (commit min_version : option string) :
  already_installed P package min_version s = (Return false, s) ->
  let id := resolved_package package commit in
  exists o w,
    pip_install P package commit min_version s =
      (o, {| versions := versions s; world := w;
             log := log s ++ [Print ("Installing " ++ id); CheckCall ["pip"; "install"; id]] |}).
Proof.
  intros Hno id. unfold pip_install. unfold bind at 1. rewrite Hno. fold id. run.
  repeat ask_platform; rewrite <- app_assoc; eexists; eexists; reflexivity.
Qed.

Lemma pip_install_proceeds_trace {W} (P : platform W) (s : state W) (package : string)
    (commit min_version : option string) :
  already_installed P package min_version s = (Return false, s) ->
  let id := resolved_package package commit in
  trace (pip_install P package commit min_version) s =
    [Print ("Installing " ++ id); CheckCall ["pip"; "install"; id]].
Proof.
  intros Hno id.
  destruct (pip_install_proceeds P s package commit min_version Hno) as (o & w & Hrun).
  unfold trace. rewrite Hrun. cbn [snd log]. apply skipn_length_app.
Qed.

(** C3: with a non-empty min_version, pip_install skips installation exactly
    when a distribution named by the package's base name is installed and
    LooseVersion(installed) >= min_version holds; without one (None, or the
    empty string, which is false in the test) it always runs pip install.
    Installed 4.15.0 satisfies 4.15.0 and installed 4.14.9 does not. *)
Theorem pip_install_skips_iff {W} (P : platform W) (s : state W) (package : string)
    (commit : option string) :
  (forall (c : ascii) (r : string),
     let min_version := String c r in
     skips_installation (pip_install P package commit (Some min_version)) s <->
     exists installed,
       get_distribution_version P (Path.basename package) (world s) = Some installed
       /\ LooseVersion.ge installed min_version = Some true)
  /\ performs_installation (pip_install P package commit None) s
       (resolved_package package commit)
  /\ performs_installation (pip_install P package commit (Some EmptyString)) s
       (resolved_package package commit)
  /\ LooseVersion.ge "4.15.0" "4.15.0" = Some true
  /\ LooseVersion.ge "4.14.9" "4.15.0" = Some false.
Proof.
  split; [|split; [|split; [|split; reflexivity]]].
  - intros c r min_version.
    pose proof (already_installed_cases P s package c r) as Hcases.
    cbv zeta in Hcases. fold min_version in Hcases.
    unfold skips_installation.
    destruct (get_distribution_version P (Path.basename package) (world s))
      as [installed|] eqn:Hdist.
    + destruct (LooseVersion.ge installed min_version) as [[|]|] eqn:Hge.
      * split; [intros _; exists installed; now split|intros _].
        unfold trace, pip_install. unfold bind at 1 3. rewrite Hcases.
        unfold ret. cbn [fst snd log]. rewrite skipn_length_app.
        split; [reflexivity|]. intros argv [H | []]. discriminate H.
      * split.
        -- intros [_ Hnone]. exfalso.
           apply (Hnone ["pip"; "install"; resolved_package package commit]).
           rewrite (pip_install_proceeds_trace P s package commit _ Hcases).
           right; left; reflexivity.
        -- intros (v & Hv & Hvge). injection Hv as <-. rewrite Hge in Hvge.
           discriminate Hvge.
      * split.
        -- intros [Hret _]. exfalso. revert Hret.
           unfold pip_install. unfold bind at 1. rewrite Hcases. discriminate.
        -- intros (v & Hv & Hvge). injection Hv as <-. rewrite Hge in Hvge.
           discriminate Hvge.
    + split.
      * intros [_ Hnone]. exfalso.
        apply (Hnone ["pip"; "install"; resolved_package package commit]).
        rewrite (pip_install_proceeds_trace P s package commit _ Hcases).
        right; left; reflexivity.
      * intros (v & Hv & _). discriminate Hv.
  - unfold performs_installation.
    rewrite (pip_install_proceeds_trace P s package commit None eq_refl).
    right; left; reflexivity.
  - unfold performs_installation.
    rewrite (pip_install_proceeds_trace P s package commit (Some EmptyString) eq_refl).
    right; left; reflexivity.
Qed.

(** C7: with a non-empty commit, every process pip_install starts is
    pip install git+https://github.com/<package>.git@<commit>, and it does
    start it whenever the min_version block has not returned (in particular
    whenever no min_version is given). *)
Theorem pip_install_commit_identifier {W} (P : platform W) (s : state W)
    (package : string) (c : ascii) (r : string) (min_version : option string) :
  let commit := String c r in
  let id := "git+https://github.com/" ++ package ++ ".git@" ++ commit in
  (forall argv,
     In (CheckCall argv) (trace (pip_install P package (Some commit) min_version) s) ->
     argv = ["pip"; "install"; id])
  /\ (fst (already_installed P package min_version s) = Return false ->
      performs_installation (pip_install P package (Some commit) min_version) s id)
  /\ performs_installation (pip_install P package (Some commit) None) s id.
Proof.
  intros commit id.
  assert (Hid : resolved_package package (Some commit) = id) by reflexivity.
  assert (Hproceed : forall mv,
            already_installed P package mv s = (Return false, s) ->
            trace (pip_install P package (Some commit) mv) s =
              [Print ("Installing " ++ id); CheckCall ["pip"; "install"; id]]).
  { intros mv Hno. rewrite <- Hid. now apply pip_install_proceeds_trace. }
  assert (Hcases : (exists e, already_installed P package min_version s = (Raise e, s))
                   \/ (exists line, already_installed P package min_version s =
                         (Return true, {| versions := versions s; world := world s;
                                          log := log s ++ [Print line] |}))
                   \/ already_installed P package min_version s = (Return false, s)).
  { destruct min_version as [[|c' r']|]; [right; right; reflexivity| |right; right; reflexivity].
    rewrite already_installed_cases.
    destruct (get_distribution_version P (Path.basename package) (world s)) as [v|];
      [|right; right; reflexivity].
    destruct (LooseVersion.ge v (String c' r')) as [[|]|].
    - right; left; eexists; reflexivity.
    - right; right; reflexivity.
    - left; eexists; reflexivity. }
  split; [|split].
  - intros argv.
    destruct Hcases as [[e He] | [[line Hline] | Hno]].
    + unfold trace, pip_install. unfold bind at 1. rewrite He. cbn [snd].
      rewrite skipn_length_self. intros [].
    + unfold trace, pip_install. unfold bind at 1. rewrite Hline. unfold ret.
      cbn [snd log]. rewrite skipn_length_app. intros [H | []]. discriminate H.
    + rewrite (Hproceed _ Hno). intros [H | [H | []]]; [discriminate H|].
      now injection H as <-.
  - intro Hfalse. unfold performs_installation.
    destruct Hcases as [[e He] | [[line Hline] | Hno]].
    + rewrite He in Hfalse. discriminate Hfalse.
    + rewrite Hline in Hfalse. discriminate Hfalse.
    + rewrite (Hproceed _ Hno). right; left; reflexivity.
  - unfold performs_installation. rewrite (Hproceed None eq_refl).
    right; left; reflexivity.
Qed.

(** ** The global [versions] *)

Section KeepsVersions.
Context {W : Type} (P : platform W).

Lemma keeps_ret {A} (a : A) : keeps_versions (@ret W A a).
Proof. intro s. reflexivity. Qed.

Lemma keeps_raise {A} (e : exn) : keeps_versions (@raise W A e).
Proof. intro s. reflexivity. Qed.

Lemma keeps_bind {A B} (m : M W A) (k : A -> M W B) :
  keeps_versions m -> (forall a, keeps_versions (k a)) -> keeps_versions (bind m k).
Proof.
  intros Hm Hk s. unfold bind. specialize (Hm s).
  destruct (m s) as [[a|e] s']; cbn [snd] in *.
  - rewrite Hk. exact Hm.
  - exact Hm.
Qed.

Lemma keeps_try_except {A} (m : M W A) (h : exn -> M W A) :
  keeps_versions m -> (forall e, keeps_versions (h e)) -> keeps_versions (try_except m h).
Proof.
  intros Hm Hh s. unfold try_except. specialize (Hm s).
  destruct (m s) as [[a|e] s']; cbn [snd] in *.
  - exact Hm.
  - rewrite Hh. exact Hm.
Qed.

Lemma keeps_emit (e : event) : keeps_versions (@emit W e).
Proof. intro s. reflexivity. Qed.

Lemma keeps_set_world (w : W) : keeps_versions (set_world w).
Proof. intro s. reflexivity. Qed.

Lemma keeps_get_world : keeps_versions (@get_world W).
Proof. intro s. reflexivity. Qed.

Lemma keeps_get_versions : keeps_versions (@get_versions W).
Proof. intro s. reflexivity. Qed.

End KeepsVersions.

Create HintDb keeps discriminated.
#[export] Hint Resolve keeps_ret keeps_raise keeps_emit keeps_set_world
  keeps_get_world keeps_get_versions : keeps.

(** Through binds, handlers and the case distinctions of the code. *)
Ltac keeps_step :=
  match goal with
  | |- keeps_versions (bind _ _) => apply keeps_bind; [|intro]
  | |- keeps_versions (try_except _ _) => apply keeps_try_except; [|intro]
  | |- keeps_versions (match ?x with _ => _ end) => destruct x
  | |- keeps_versions _ => solve [auto with keeps]
  end.

Section KeepsVersionsScript.
Context {W : Type} (P : platform W).

Lemma keeps_print (line : string) : keeps_versions (@print W line).
Proof. apply keeps_emit. Qed.

Lemma keeps_check_call (argv : list string) : keeps_versions (check_call P argv).
Proof. unfold check_call. repeat keeps_step. Qed.

Lemma keeps_Popen (argv : list string) : keeps_versions (Popen P argv).
Proof. unfold Popen. repeat keeps_step. Qed.

Lemma keeps_communicate (p : list string) (input : string) :
  keeps_versions (communicate P p input).
Proof. unfold communicate. repeat keeps_step. Qed.

Lemma keeps_get_distribution (name : string) : keeps_versions (get_distribution P name).
Proof. unfold get_distribution. repeat keeps_step. Qed.

Lemma keeps_compare_versions (r : option bool) : keeps_versions (@compare_versions W r).
Proof. unfold compare_versions. repeat keeps_step. Qed.

Lemma keeps_open_read (path : string) : keeps_versions (open_read P path).
Proof. unfold open_read. repeat keeps_step. Qed.

Lemma keeps_exec (source path : string) : keeps_versions (exec P source path).
Proof. unfold exec. repeat keeps_step. Qed.

Lemma keeps_sys_argv (argv : list string) (i : nat) : keeps_versions (@sys_argv W argv i).
Proof. unfold sys_argv. repeat keeps_step. Qed.

Hint Resolve keeps_print keeps_check_call keeps_Popen keeps_communicate
  keeps_get_distribution keeps_compare_versions keeps_open_read keeps_exec
  keeps_sys_argv : keeps.

Lemma keeps_pip_install (package : string) (commit min_version : option string) :
  keeps_versions (pip_install P package commit min_version).
Proof. unfold pip_install, already_installed. repeat keeps_step. Qed.

Hint Resolve keeps_pip_install : keeps.

Lemma keeps_create_build_env (dirname : string) :
  keeps_versions (create_build_env P dirname).
Proof. unfold create_build_env. repeat keeps_step. Qed.

Lemma keeps_build_docs (sphinx_executable version : string) (kw : kwargs) :
  keeps_versions (build_docs P sphinx_executable version kw).
Proof. unfold build_docs, run_lessc. repeat keeps_step. Qed.

Hint Resolve keeps_create_build_env keeps_build_docs : keeps.

Lemma keeps_main (argv : list string) : keeps_versions (main P argv).
Proof. unfold main. repeat keeps_step. Qed.

Lemma perform_keeps_versions (op : operation) (s : state W) :
  versions (perform P op s) = versions s.
Proof.
  destruct op; cbn [perform].
  - apply keeps_pip_install.
  - apply keeps_create_build_env.
  - apply keeps_build_docs.
  - apply keeps_main.
Qed.

End KeepsVersionsScript.

(** C9: no operation of the module writes the global versions.  After any
    sequence of calls of pip_install, create_build_env, build_docs and the
    entry point, whatever their arguments and outcomes and whatever the
    platform answers, its value is the one before; from the state in which
    the module is loaded it is ['0.1.0']. *)
Theorem versions_never_mutated {W} (P : platform W) (ops : list operation) :
  (forall s : state W, versions (perform_all P ops s) = versions s)
  /\ (forall w : W, versions (perform_all P ops (initial_state w)) = ["0.1.0"]).
Proof.
  assert (H : forall s : state W, versions (perform_all P ops s) = versions s).
  { induction ops as [|op ops IH]; intro s; [reflexivity|].
    cbn [perform_all fold_left]. fold (perform_all P ops (perform P op s)).
    rewrite IH. apply perform_keeps_versions. }
  split; [exact H|]. intro w. rewrite H. reflexivity.
Qed.

(** ** The version picker *)

Section SortedLists.
Context {A : Type}.

Lemma Sorted_skipn (R : A -> A -> Prop) (n : nat) (l : list A) :
  Sorted R l -> Sorted R (skipn n l).
Proof.
  revert l. induction n as [|n IH]; intros l Hl; [exact Hl|].
  destruct l as [|a l]; [constructor|].
  cbn [skipn]. apply IH. now inversion Hl.
Qed.

Lemma Sorted_snoc (R : A -> A -> Prop) (l : list A) (a : A) :
  Sorted R l -> (l = [] \/ R (last l a) a) -> Sorted R (l ++ [a]).
Proof.
  induction l as [|y l IH]; intros Hl Hlast.
  - repeat constructor.
  - inversion Hl as [|? ? Hsorted Hhd]; subst.
    destruct Hlast as [Hnil | Hlast]; [discriminate Hnil|].
    destruct l as [|z l].
    + cbn in *. repeat constructor. exact Hlast.
    + cbn [app]. constructor.
      * apply IH; [exact Hsorted | right; exact Hlast].
      * constructor. now inversion Hhd.
Qed.

Lemma Sorted_rev (R : A -> A -> Prop) (l : list A) :
  Sorted R l -> Sorted (fun a b => R b a) (rev l).
Proof.
  induction l as [|a l IH]; intro Hl; [constructor|].
  inversion Hl as [|? ? Hsorted Hhd]; subst.
  cbn [rev]. apply Sorted_snoc; [now apply IH|].
  destruct l as [|b l]; [left; reflexivity|right].
  cbn [rev]. rewrite last_last. now inversion Hhd.
Qed.

End SortedLists.

Lemma last_n_suffix {A} (n : nat) (l : list A) :
  exists older, l = (older ++ Py.last_n n l)%list.
Proof.
  exists (firstn (List.length l - n) l). unfold Py.last_n.
  symmetry. apply firstn_skipn.
Qed.

Lemma last_n_length {A} (n : nat) (l : list A) :
  List.length (Py.last_n n l) = Nat.min n (List.length l).
Proof. unfold Py.last_n. rewrite length_skipn. lia. Qed.

(** C2 (as stated, refuted): with the known-versions list ['0.1.0', '0.2.0']
    the picker list is ['0.2.0', '0.1.0'], which is not oldest-to-newest. *)
Lemma main_versions_not_ascending :
  main_versions ["0.1.0"; "0.2.0"] = ["0.2.0"; "0.1.0"]
  /\ ~ oldest_to_newest (main_versions ["0.1.0"; "0.2.0"]).
Proof.
  split; [reflexivity|].
  intro H. inversion H as [|? ? _ Hhd]; subst.
  inversion Hhd as [|? ? Hle]; subst.
  vm_compute in Hle. discriminate Hle.
Qed.

(** C2 (amended): for every known-versions list, the picker list has
    min(3, len) entries, hence at most 3; it is the last (at most) three
    entries of the list in reverse order, so newest first when the list is
    oldest first; and it is what -Aversions= shows, joined by commas. *)
Theorem main_versions_last_three_reversed (vs : list string) :
  List.length (main_versions vs) = Nat.min 3 (List.length vs)
  /\ List.length (main_versions vs) <= 3
  /\ (exists older, vs = (older ++ rev (main_versions vs))%list)
  /\ (oldest_to_newest vs -> newest_to_oldest (main_versions vs))
  /\ (forall cwd doc_dir doxyxml_dir html_dir version,
        nth 5 (sphinx_argv cwd doc_dir doxyxml_dir html_dir version vs) EmptyString =
        "-Aversions=" ++ Py.str_join "," (main_versions vs)).
Proof.
  assert (Hlen : List.length (main_versions vs) = Nat.min 3 (List.length vs)).
  { unfold main_versions. rewrite length_rev. apply last_n_length. }
  split; [exact Hlen|]. split; [lia|]. split; [|split].
  - unfold main_versions. rewrite rev_involutive. apply last_n_suffix.
  - intro Hsorted. unfold newest_to_oldest, main_versions.
    apply (Sorted_rev (fun a b => LooseVersion.le a b = Some true)).
    unfold Py.last_n. now apply Sorted_skipn.
  - reflexivity.
Qed.

(** ** Runs on the concrete platform *)

(** C1 (the code at the failing input): started as
    build.py /opt/sphinx/bin/sphinx-build dev on a machine where every tool
    succeeds, the script runs to the end, the render step runs the fixed
    name sphinx-build, and no process named by the first argument is run. *)
Theorem main_runs_fixed_sphinx_build :
  let argv := ["build.py"; "/opt/sphinx/bin/sphinx-build"; "dev"] in
  let r := main (Demo.platform None 0) argv (initial_state Demo.ready) in
  fst r = Return tt
  /\ (exists rest, In (CheckCall ("sphinx-build" :: "-Dbreathe_projects.format=/home/user/interval_dict/doc/doxyxml" :: rest)) (log (snd r)))
  /\ (forall rest, ~ In (CheckCall ("/opt/sphinx/bin/sphinx-build" :: rest)) (log (snd r))).
Proof.
  intros argv r. vm_compute in r. subst r. cbn [fst snd log].
  split; [reflexivity|]. split.
  - eexists. do 7 right. left. reflexivity.
  - intros rest H. cbn [In] in H.
    repeat match goal with
           | H : _ \/ _ |- _ => destruct H as [H | H]
           | H : False |- _ => destruct H
           | H : _ = CheckCall _ |- _ => discriminate H
           end.
Qed.

(** C6 (as stated, refuted): with the default work_dir a successful run of
    build_docs returns './html', which is not an absolute path. *)
Lemma build_docs_default_returns_relative :
  fst (build_docs (Demo.platform None 0) "sphinx-build" "dev" no_kwargs
         (initial_state Demo.ready)) = Return "./html"
  /\ Path.isabs "./html" = false.
Proof. split; vm_compute; reflexivity. Qed.

(** The styling step on a machine without lessc: the hint, exit status 1,
    and the html directory still there. *)
Lemma lessc_launch_failure_witness :
  let P := Demo.platform (Some ENOENT) 0 in
  let r := build_docs P "sphinx-build" "dev" no_kwargs (initial_state Demo.ready) in
  fst r = Raise (SystemExit 1)
  /\ exit_status (fst r) = 1%Z
  /\ In "./html" (Demo.files (world (snd r)))
  /\ In (Print lessc_hint) (log (snd r)).
Proof.
  intros P r.
  destruct (lessc_launch_failure P (initial_state Demo.ready) "sphinx-build" "dev"
              no_kwargs Demo.ready (Demo.touch "./html" Demo.ready) ENOENT
              eq_refl eq_refl eq_refl eq_refl eq_refl) as [Henoent _].
  destruct (Henoent eq_refl) as [Hr Hexit].
  split; [subst r; rewrite Hr; reflexivity|].
  split; [exact Hexit|].
  subst r. rewrite Hr. cbn [snd world log]. split.
  - left. reflexivity.
  - apply in_or_app. right. do 4 right. left. reflexivity.
Defined.

(** A run in which doxygen exits with status 2. *)
Lemma doxygen_failure_prevents_render_witness :
  let P := Demo.platform None 2 in
  let s := initial_state Demo.ready in
  fst (build_docs P "sphinx-build" "dev" no_kwargs s)
    = Raise (CalledProcessError 2 ["doxygen"; "-"])
  /\ forall argv, ~ In (CheckCall argv) (trace (build_docs P "sphinx-build" "dev" no_kwargs) s).
Proof.
  intros P s.
  destruct (doxygen_failure_prevents_render P s "sphinx-build" "dev" no_kwargs 2
              Demo.ready eq_refl eq_refl) as [Hr Hnone].
  - discriminate.
  - split; [rewrite Hr; reflexivity | exact Hnone].
Defined.

(** A successful run with an absolute work_dir. *)
Lemma build_docs_returns_joined_html_dir_witness :
  let P := Demo.platform None 0 in
  let kw := {| kw_doc_dir := None; kw_work_dir := Some "/tmp/out"; kw_include_dir := None |} in
  fst (build_docs P "sphinx-build" "dev" kw (initial_state Demo.ready)) = Return "/tmp/out/html"
  /\ "/tmp/out/html" = Path.join (work_dir_of kw) ["html"]
  /\ Path.isabs "/tmp/out/html" = Path.isabs (work_dir_of kw)
  /\ (kw_work_dir kw = None -> "/tmp/out/html" = "./html").
Proof.
  intros P kw.
  assert (Hret : fst (build_docs P "sphinx-build" "dev" kw (initial_state Demo.ready))
                 = Return "/tmp/out/html") by (vm_compute; reflexivity).
  split; [exact Hret|].
  exact (build_docs_returns_joined_html_dir P (initial_state Demo.ready)
           "sphinx-build" "dev" kw "/tmp/out/html" Hret).
Defined.

(** A run with the relative doc_dir 'docs'. *)
Lemma breathe_source_is_absolute_witness :
  let P := Demo.platform None 0 in
  let kw := {| kw_doc_dir := Some "docs"; kw_work_dir := None; kw_include_dir := None |} in
  let argv := ["sphinx-build";
               "-Dbreathe_projects.format=/home/user/interval_dict/doc/docs/doxyxml";
               "-Dversion=dev"; "-Drelease=dev"; "-Aversion=dev"; "-Aversions=0.1.0";
               "-b"; "html"; "docs"; "./html"] in
  In (CheckCall argv) (trace (build_docs P "sphinx-build" "dev" kw) (initial_state Demo.ready))
  /\ exists w1 : Demo.world,
       let p := Path.abspath (getcwd P w1) (Path.join "docs" ["doxyxml"]) in
       nth 1 argv EmptyString = "-Dbreathe_projects.format=" ++ p /\ Path.isabs p = true.
Proof.
  intros P kw argv.
  assert (Hin : In (CheckCall argv)
                  (trace (build_docs P "sphinx-build" "dev" kw) (initial_state Demo.ready))).
  { vm_compute. right; right; left; reflexivity. }
  split; [exact Hin|].
  exact (breathe_source_is_absolute P (initial_state Demo.ready) "sphinx-build" "dev" kw
           argv (fun _ => eq_refl) Hin eq_refl).
Defined.

(** A run from the state in which the module is loaded. *)
Lemma render_step_for_dev_witness :
  exists breathe_source doc_dir html_dir : string,
    In (CheckCall ["sphinx-build"; breathe_source;
                   "-Dversion=dev"; "-Drelease=dev"; "-Aversion=dev";
                   "-Aversions=0.1.0"; "-b"; "html"; doc_dir; html_dir])
       (trace (build_docs (Demo.platform None 0) "/opt/sphinx/bin/sphinx-build" "dev" no_kwargs)
          (initial_state Demo.ready)).
Proof.
  exact (render_step_for_dev (Demo.platform None 0) (initial_state Demo.ready)
           "/opt/sphinx/bin/sphinx-build" no_kwargs Demo.ready eq_refl eq_refl eq_refl).
Defined.

(** The installer on the concrete platform: breathe 4.15.0 is new enough for
    the constraint 4.15.0, breathe 4.14.9 is not. *)
Example pip_install_breathe_skipped :
  trace (pip_install (Demo.platform None 0) "breathe" None (Some "4.15.0"))
    (initial_state Demo.ready)
  = [Print "breathe 4.15.0 already installed"].
Proof. reflexivity. Qed.

Example pip_install_breathe_too_old :
  trace (pip_install (Demo.platform None 0) "breathe" None (Some "4.15.0"))
    (initial_state {| Demo.files := []; Demo.dists := [("breathe", "4.14.9")] |})
  = [Print "Installing breathe"; CheckCall ["pip"; "install"; "breathe"]].
Proof. reflexivity. Qed.

Example pip_install_from_commit :
  trace (pip_install (Demo.platform None 0) "fmtlib/fmt" (Some "9cb347b") None)
    (initial_state Demo.bare)
  = [Print "Installing git+https://github.com/fmtlib/fmt.git@9cb347b";
     CheckCall ["pip"; "install"; "git+https://github.com/fmtlib/fmt.git@9cb347b"]].
Proof. reflexivity. Qed.

(** The installer decides by version: with breathe 4.15.0 installed the
    constraint 4.15.0 makes it skip, with breathe 4.14.9 it does not. *)
Lemma pip_install_skips_iff_witness :
  let P := Demo.platform None 0 in
  let old := {| Demo.files := []; Demo.dists := [("breathe", "4.14.9")] |} in
  skips_installation (pip_install P "breathe" None (Some "4.15.0")) (initial_state Demo.ready)
  /\ ~ skips_installation (pip_install P "breathe" None (Some "4.15.0")) (initial_state old).
Proof.
  intros P old. split.
  - destruct (pip_install_skips_iff P (initial_state Demo.ready) "breathe" None)
      as [Hiff _].
    apply (Hiff "4"%char ".15.0"). exists "4.15.0". split; reflexivity.
  - destruct (pip_install_skips_iff P (initial_state old) "breathe" None) as [Hiff _].
    intro Hskip. apply (Hiff "4"%char ".15.0") in Hskip.
    destruct Hskip as (installed & Hfound & Hge).
    vm_compute in Hfound. injection Hfound as <-.
    vm_compute in Hge. discriminate Hge.
Defined.

(** Installing fmtlib/fmt at a commit, with and without a version
    constraint that is not met. *)
Lemma pip_install_commit_identifier_witness :
  let P := Demo.platform None 0 in
  let id := "git+https://github.com/fmtlib/fmt.git@9cb347b" in
  performs_installation (pip_install P "fmtlib/fmt" (Some "9cb347b") (Some "7.0"))
    (initial_state Demo.bare) id
  /\ performs_installation (pip_install P "fmtlib/fmt" (Some "9cb347b") None)
    (initial_state Demo.bare) id.
Proof.
  intros P id.
  destruct (pip_install_commit_identifier P (initial_state Demo.bare) "fmtlib/fmt"
              "9"%char "cb347b" (Some "7.0")) as (_ & Hproceeds & Hnone).
  split; [apply Hproceeds; reflexivity | exact Hnone].
Defined.

(** Four releases, oldest first: the picker shows the last three, newest
    first. *)
Lemma main_versions_last_three_reversed_witness :
  main_versions ["0.1.0"; "0.2.0"; "0.3.0"; "0.4.0"] = ["0.4.0"; "0.3.0"; "0.2.0"]
  /\ newest_to_oldest (main_versions ["0.1.0"; "0.2.0"; "0.3.0"; "0.4.0"]).
Proof.
  split; [reflexivity|].
  destruct (main_versions_last_three_reversed ["0.1.0"; "0.2.0"; "0.3.0"; "0.4.0"])
    as (_ & _ & _ & Horder & _).
  apply Horder. repeat constructor.
Defined.

(** ** Composition of runs *)

Lemma bind_assoc {W A B C} (m : M W A) (f : A -> M W B) (g : B -> M W C) (s : state W) :
  bind (bind m f) g s = bind m (fun a => bind (f a) g) s.
Proof. unfold bind. destruct (m s) as [[a|e] s']; reflexivity. Qed.

Lemma bind_ext {W A B} (m m' : M W A) (k k' : A -> M W B) :
  (forall s, m s = m' s) -> (forall a s, k a s = k' a s) ->
  forall s, bind m k s = bind m' k' s.
Proof.
  intros Hm Hk s. unfold bind. rewrite Hm.
  destruct (m' s) as [[a|e] s']; [apply Hk | reflexivity].
Qed.

Section Appends.
Context {W : Type} (P : platform W).

Lemma appends_ret {A} (a : A) : appends (@ret W A a).
Proof. intro s. exists []. cbn. now rewrite app_nil_r. Qed.

Lemma appends_raise {A} (e : exn) : appends (@raise W A e).
Proof. intro s. exists []. cbn. now rewrite app_nil_r. Qed.

Lemma appends_bind {A B} (m : M W A) (k : A -> M W B) :
  appends m -> (forall a, appends (k a)) -> appends (bind m k).
Proof.
  intros Hm Hk s. unfold bind. destruct (Hm s) as [t Ht].
  destruct (m s) as [[a|e] s']; cbn [snd] in *.
  - destruct (Hk a s') as [t' Ht']. exists (t ++ t')%list.
    rewrite Ht', Ht. now rewrite app_assoc.
  - exists t. exact Ht.
Qed.

Lemma appends_try_except {A} (m : M W A) (h : exn -> M W A) :
  appends m -> (forall e, appends (h e)) -> appends (try_except m h).
Proof.
  intros Hm Hh s. unfold try_except. destruct (Hm s) as [t Ht].
  destruct (m s) as [[a|e] s']; cbn [snd] in *.
  - exists t. exact Ht.
  - destruct (Hh e s') as [t' Ht']. exists (t ++ t')%list.
    rewrite Ht', Ht. now rewrite app_assoc.
Qed.

Lemma appends_emit (e : event) : appends (@emit W e).
Proof. intro s. exists [e]. reflexivity. Qed.

Lemma appends_set_world (w : W) : appends (set_world w).
Proof. intro s. exists []. cbn. now rewrite app_nil_r. Qed.

Lemma appends_get_world : appends (@get_world W).
Proof. intro s. exists []. cbn. now rewrite app_nil_r. Qed.

Lemma appends_get_versions : appends (@get_versions W).
Proof. intro s. exists []. cbn. now rewrite app_nil_r. Qed.

End Appends.

Create HintDb appends discriminated.
#[export] Hint Resolve appends_ret appends_raise appends_emit appends_set_world
  appends_get_world appends_get_versions : appends.

Ltac appends_step :=
  match goal with
  | |- appends (bind _ _) => apply appends_bind; [|intro]
  | |- appends (try_except _ _) => apply appends_try_except; [|intro]
  | |- appends (match ?x with _ => _ end) => destruct x
  | |- appends _ => solve [auto with appends]
  end.

Section AppendsScript.
Context {W : Type} (P : platform W).

Lemma appends_print (line : string) : appends (@print W line).
Proof. apply appends_emit. Qed.

Lemma appends_check_call (argv : list string) : appends (check_call P argv).
Proof. unfold check_call. repeat appends_step. Qed.

Lemma appends_Popen (argv : list string) : appends (Popen P argv).
Proof. unfold Popen. repeat appends_step. Qed.

Lemma appends_communicate (p : list string) (input : string) :
  appends (communicate P p input).
Proof. unfold communicate. repeat appends_step. Qed.

Lemma appends_get_distribution (name : string) : appends (get_distribution P name).
Proof. unfold get_distribution. repeat appends_step. Qed.

Lemma appends_compare_versions (r : option bool) : appends (@compare_versions W r).
Proof. unfold compare_versions. repeat appends_step. Qed.

Lemma appends_open_read (path : string) : appends (open_read P path).
Proof. unfold open_read. repeat appends_step. Qed.

Lemma appends_exec (source path : string) : appends (exec P source path).
Proof. unfold exec. repeat appends_step. Qed.

Lemma appends_sys_argv (argv : list string) (i : nat) : appends (@sys_argv W argv i).
Proof. unfold sys_argv. repeat appends_step. Qed.

Hint Resolve appends_print appends_check_call appends_Popen appends_communicate
  appends_get_distribution appends_compare_versions appends_open_read appends_exec
  appends_sys_argv : appends.

Lemma appends_pip_install (package : string) (commit min_version : option string) :
  appends (pip_install P package commit min_version).
Proof. unfold pip_install, already_installed. repeat appends_step. Qed.

Hint Resolve appends_pip_install : appends.

Lemma appends_make_env (dirname : string) : appends (make_env P dirname).
Proof. unfold make_env. repeat appends_step. Qed.

Lemma appends_activate_env (dirname : string) : appends (activate_env P dirname).
Proof. unfold activate_env. repeat appends_step. Qed.

Lemma appends_upgrade_pip : appends (upgrade_pip P).
Proof. unfold upgrade_pip. repeat appends_step. Qed.

Lemma appends_upgrade_distribute : appends (upgrade_distribute P).
Proof. unfold upgrade_distribute. repeat appends_step. Qed.

Lemma appends_install_doc_tools : appends (install_doc_tools P).
Proof. unfold install_doc_tools. repeat appends_step. Qed.

Hint Resolve appends_make_env appends_activate_env appends_upgrade_pip
  appends_upgrade_distribute appends_install_doc_tools : appends.

Lemma appends_install_tools : appends (install_tools P).
Proof. unfold install_tools. repeat appends_step. Qed.

Lemma appends_create_build_env (dirname : string) : appends (create_build_env P dirname).
Proof. unfold create_build_env. repeat appends_step. Qed.

Lemma appends_build_docs (sphinx_executable version : string) (kw : kwargs) :
  appends (build_docs P sphinx_executable version kw).
Proof. unfold build_docs, run_lessc. repeat appends_step. Qed.

End AppendsScript.

#[export] Hint Resolve appends_print appends_check_call appends_Popen
  appends_communicate appends_get_distribution appends_compare_versions
  appends_open_read appends_exec appends_sys_argv appends_pip_install
  appends_make_env appends_activate_env appends_upgrade_pip
  appends_upgrade_distribute appends_install_doc_tools appends_install_tools
  appends_create_build_env appends_build_docs : appends.

(** The log after a run is the log before it followed by the run's trace. *)
Lemma log_trace {W A} (m : M W A) (s : state W) :
  appends m -> log (snd (m s)) = (log s ++ trace m s)%list.
Proof.
  intro Hm. unfold trace. destruct (Hm s) as [t Ht]. rewrite Ht.
  now rewrite skipn_length_app.
Qed.

(** The trace of [m ;; k] is the trace of [m] followed, when [m] returns, by
    the trace of [k]. *)
Lemma trace_bind {W A B} (m : M W A) (k : A -> M W B) (s : state W) :
  appends m -> (forall a, appends (k a)) ->
  trace (bind m k) s =
    (trace m s ++ match m s with
                  | (Return a, s') => trace (k a) s'
                  | (Raise _, _) => []
                  end)%list.
Proof.
  intros Hm Hk. pose proof (log_trace m s Hm) as Hlog.
  unfold trace at 1. unfold bind.
  destruct (m s) as [[a|e] s'] eqn:Hms; cbn [snd] in *.
  - rewrite (log_trace (k a) s' (Hk a)), Hlog, <- app_assoc.
    now rewrite skipn_length_app.
  - rewrite Hlog, skipn_length_app. now rewrite app_nil_r.
Qed.

(** ** More on [build_docs] *)

Ltac unfold_build_docs :=
  unfold build_docs, run_lessc, build_docs_steps, doxygen_input, doxygen_cmd,
    render_cmd, lessc_cmd, include_dir_of, doxyxml_dir_of, html_dir_of,
    work_dir_of, doc_dir_of in *.

(** X1: the steps of build_docs happen in the order of the code, and a run
    stops at the first that fails: its trace is a prefix of starting doxygen,
    feeding it the configuration, calling sphinx-build, calling lessc, and
    printing the hint. *)
Theorem build_docs_steps_in_order {W} (P : platform W) (s : state W)
    (sphinx_executable version : string) (kw : kwargs) :
  let w1 := snd (run_process P doxygen_cmd (Some (doxygen_input P kw (world s))) (world s)) in
  exists n : nat,
    trace (build_docs P sphinx_executable version kw) s =
    firstn n (build_docs_steps P kw version (versions s) (world s) w1).
Proof.
  unfold trace. unfold_build_docs. run.
  repeat ask_platform; cbn [snd log]; rewrite <- ?app_assoc;
    rewrite skipn_length_app; cbn [app];
    first [ exists 1; reflexivity | exists 2; reflexivity | exists 3; reflexivity
          | exists 4; reflexivity | exists 5; reflexivity ].
Qed.

(** X2: when doxygen, sphinx-build and lessc all start and exit with status
    0, build_docs returns os.path.join(work_dir, 'html') after exactly those
    three tool runs, in the world lessc left, and prints nothing. *)
Theorem build_docs_success {W} (P : platform W) (s : state W)
    (sphinx_executable version : string) (kw : kwargs) (w1 w2 w3 : W) :
  launch_error P doxygen_cmd (world s) = None ->
  run_process P doxygen_cmd (Some (doxygen_input P kw (world s))) (world s) = (0%Z, w1) ->
  launch_error P (render_cmd P kw version (versions s) (world s) w1) w1 = None ->
  run_process P (render_cmd P kw version (versions s) (world s) w1) None w1 = (0%Z, w2) ->
  launch_error P (lessc_cmd P kw (world s)) w2 = None ->
  run_process P (lessc_cmd P kw (world s)) None w2 = (0%Z, w3) ->
  build_docs P sphinx_executable version kw s =
    (Return (html_dir_of kw),
     {| versions := versions s; world := w3;
        log := log s ++ firstn 4 (build_docs_steps P kw version (versions s) (world s) w1) |}).
Proof.
  intros Hdox Hdoxrun Hsphinx Hsphinxrun Hlessc Hlesscrun.
  unfold_build_docs.
  run. rewrite Hdox. run. rewrite Hdoxrun. run. cbn [Z.eqb negb]. run.
  rewrite Hsphinx. run. rewrite Hsphinxrun. run. cbn [Z.eqb]. run.
  rewrite Hlessc. run. rewrite Hlesscrun. run. cbn [Z.eqb]. run.
  rewrite <- !app_assoc. reflexivity.
Qed.

(** X3: when sphinx-build exits with a non-zero status, build_docs raises
    CalledProcessError for the sphinx-build command line with that status and
    lessc is never called. *)
Theorem sphinx_failure_skips_styling {W} (P : platform W) (s : state W)
    (sphinx_executable version : string) (kw : kwargs) (w1 w2 : W) (rc : Z) :
  launch_error P doxygen_cmd (world s) = None ->
  run_process P doxygen_cmd (Some (doxygen_input P kw (world s))) (world s) = (0%Z, w1) ->
  launch_error P (render_cmd P kw version (versions s) (world s) w1) w1 = None ->
  run_process P (render_cmd P kw version (versions s) (world s) w1) None w1 = (rc, w2) ->
  rc <> 0%Z ->
  build_docs P sphinx_executable version kw s =
    (Raise (CalledProcessError rc (render_cmd P kw version (versions s) (world s) w1)),
     {| versions := versions s; world := w2;
        log := log s ++ firstn 3 (build_docs_steps P kw version (versions s) (world s) w1) |}).
Proof.
  intros Hdox Hdoxrun Hsphinx Hsphinxrun Hrc.
  unfold_build_docs.
  run. rewrite Hdox. run. rewrite Hdoxrun. run. cbn [Z.eqb negb]. run.
  rewrite Hsphinx. run. rewrite Hsphinxrun. run.
  apply Z.eqb_neq in Hrc. rewrite Hrc. run.
  rewrite <- !app_assoc. reflexivity.
Qed.

(** X4: a lessc that starts and exits with a non-zero status is not handled
    by the except clause: CalledProcessError for the lessc command line
    propagates, and no hint is printed. *)
Theorem lessc_nonzero_exit_propagates {W} (P : platform W) (s : state W)
    (sphinx_executable version : string) (kw : kwargs) (w1 w2 w3 : W) (rc : Z) :
  launch_error P doxygen_cmd (world s) = None ->
  run_process P doxygen_cmd (Some (doxygen_input P kw (world s))) (world s) = (0%Z, w1) ->
  launch_error P (render_cmd P kw version (versions s) (world s) w1) w1 = None ->
  run_process P (render_cmd P kw version (versions s) (world s) w1) None w1 = (0%Z, w2) ->
  launch_error P (lessc_cmd P kw (world s)) w2 = None ->
  run_process P (lessc_cmd P kw (world s)) None w2 = (rc, w3) ->
  rc <> 0%Z ->
  build_docs P sphinx_executable version kw s =
    (Raise (CalledProcessError rc (lessc_cmd P kw (world s))),
     {| versions := versions s; world := w3;
        log := log s ++ firstn 4 (build_docs_steps P kw version (versions s) (world s) w1) |}).
Proof.
  intros Hdox Hdoxrun Hsphinx Hsphinxrun Hlessc Hlesscrun Hrc.
  unfold_build_docs.
  run. rewrite Hdox. run. rewrite Hdoxrun. run. cbn [Z.eqb negb]. run.
  rewrite Hsphinx. run. rewrite Hsphinxrun. run. cbn [Z.eqb]. run.
  rewrite Hlessc. run. rewrite Hlesscrun. run.
  apply Z.eqb_neq in Hrc. rewrite Hrc. run.
  rewrite <- !app_assoc. reflexivity.
Qed.


(** X6: when doxygen cannot be started, build_docs raises the OSError of the
    launch, whatever its errno (ENOENT included: the hint of the styling step
    does not apply), having done nothing but the attempt; the world and the
    global versions are untouched. *)
Theorem doxygen_launch_failure {W} (P : platform W) (s : state W)
    (sphinx_executable version : string) (kw : kwargs) (errno : Z) :
  launch_error P doxygen_cmd (world s) = Some errno ->
  build_docs P sphinx_executable version kw s =
    (Raise (OSError errno),
     {| versions := versions s; world := world s;
        log := log s ++ [PopenStart doxygen_cmd] |}).
Proof.
  intro Hdox. unfold_build_docs. run. rewrite Hdox. run. reflexivity.
Qed.

(** ** More on [pip_install] *)

Lemma string_compare_refl (s : string) : String.compare s s = Eq.
Proof.
  pose proof (String.compare_antisym s s) as H.
  destruct (String.compare s s); [reflexivity | discriminate H | discriminate H].
Qed.

Lemma cmp_components_refl (l : list LooseVersion.component) :
  LooseVersion.cmp_components l l = Some Eq.
Proof.
  induction l as [|[n|t] l IH]; cbn [LooseVersion.cmp_components].
  - reflexivity.
  - now rewrite N.compare_refl.
  - now rewrite string_compare_refl.
Qed.

(** A version is at least itself. *)
Lemma LooseVersion_ge_refl (v : string) : LooseVersion.ge v v = Some true.
Proof. unfold LooseVersion.ge, LooseVersion.cmp. now rewrite cmp_components_refl. Qed.

(** X7: once the min_version block has not returned, the outcome of
    pip_install is the outcome of pip: it returns when pip exits with status
    0 and raises CalledProcessError with pip's status and command line
    otherwise (no retry); the world is the one pip left. *)
Theorem pip_install_outcome_is_pip_status {W} (P : platform W) (s : state W)
    (package : string) (commit min_version : option string) (rc : Z) (w1 : W) :
  let argv := ["pip"; "install"; resolved_package package commit] in
  already_installed P package min_version s = (Return false, s) ->
  launch_error P argv (world s) = None ->
  run_process P argv None (world s) = (rc, w1) ->
  pip_install P package commit min_version s =
    ((if (rc =? 0)%Z then Return tt else Raise (CalledProcessError rc argv)),
     {| versions := versions s; world := w1;
        log := log s ++ [Print ("Installing " ++ resolved_package package commit);
                         CheckCall argv] |}).
Proof.
  intros argv Hno Hlaunch Hrun. subst argv.
  unfold pip_install. unfold bind at 1. rewrite Hno. run.
  rewrite Hlaunch. run. rewrite Hrun. run.
  rewrite <- app_assoc. destruct (rc =? 0)%Z; reflexivity.
Qed.

(** X8: when the installed version is the very string given as min_version,
    pip_install always skips: it prints the already-installed line and
    returns, with the world untouched and pip never called. *)
Theorem pip_install_exact_version_skips {W} (P : platform W) (s : state W)
    (package : string) (commit : option string) (c : ascii) (r : string) :
  let min_version := String c r in
  get_distribution_version P (Path.basename package) (world s) = Some min_version ->
  pip_install P package commit (Some min_version) s =
    (Return tt,
     {| versions := versions s; world := world s;
        log := log s ++ [Print (package ++ " " ++ min_version ++ " already installed")] |}).
Proof.
  intros min_version Hfound. subst min_version.
  unfold pip_install. unfold bind at 1.
  rewrite already_installed_cases. cbv zeta. rewrite Hfound.
  rewrite LooseVersion_ge_refl. reflexivity.
Qed.

(** X9: when the installed version cannot be compared with min_version (an
    integer component meets a text component), the TypeError of the
    comparison is not caught by the except clause: pip_install raises it,
    having printed and installed nothing. *)
Theorem pip_install_incomparable_version_raises {W} (P : platform W) (s : state W)
    (package : string) (commit : option string) (c : ascii) (r installed : string) :
  let min_version := String c r in
  get_distribution_version P (Path.basename package) (world s) = Some installed ->
  LooseVersion.ge installed min_version = None ->
  pip_install P package commit (Some min_version) s = (Raise TypeError, s).
Proof.
  intros min_version Hfound Hcmp. subst min_version.
  unfold pip_install. unfold bind at 1.
  rewrite already_installed_cases. cbv zeta. rewrite Hfound, Hcmp.
  reflexivity.
Qed.

(** ** More on [create_build_env] *)

(** Case analysis on the next answer of the platform or of a version
    comparison. *)
Ltac ask :=
  first
    [ ask_platform
    | match goal with
      | |- context [LooseVersion.lt ?a ?b] =>
          destruct (LooseVersion.lt a b) as [[|]|] eqn:?
      | |- context [LooseVersion.le ?a ?b] =>
          destruct (LooseVersion.le a b) as [[|]|] eqn:?
      | |- context [LooseVersion.ge ?a ?b] =>
          destruct (LooseVersion.ge a b) as [[|]|] eqn:?
      end; run ].

Ltac unfold_build_env :=
  unfold create_build_env, make_env, activate_env, activate_this_file_of, install_tools,
    upgrade_pip, upgrade_distribute, install_doc_tools, pip_install, already_installed,
    resolved_package in *.

(** [create_build_env] is its parts, one after the other. *)
Lemma create_build_env_parts {W} (P : platform W) (dirname : string) (s : state W) :
  create_build_env P dirname s =
  (make_env P dirname ;; activate_env P dirname ;; install_tools P)%py s.
Proof.
  unfold_build_env. run. repeat ask; reflexivity.
Qed.

Lemma trace_ext {W A} (m m' : M W A) (s : state W) :
  m s = m' s -> trace m s = trace m' s.
Proof. intro H. unfold trace. now rewrite H. Qed.

Lemma in_trace_bind {W A B} (m : M W A) (k : A -> M W B) (s : state W) (e : event) :
  appends m -> (forall a, appends (k a)) ->
  In e (trace (bind m k) s) <->
  In e (trace m s) \/ exists a s', m s = (Return a, s') /\ In e (trace (k a) s').
Proof.
  intros Hm Hk. rewrite (trace_bind m k s Hm Hk), in_app_iff.
  destruct (m s) as [[a|x] s'].
  - split; (intros [H | H]; [left; exact H | right]).
    + exists a, s'. now split.
    + destruct H as (a' & s'' & Heq & Hin). now injection Heq as <- <-.
  - split; (intros [H | H]; [left; exact H |]).
    + destruct H.
    + destruct H as (a' & s'' & Heq & _). discriminate Heq.
Qed.

(** Taking the events of a trace apart. *)
Ltac split_in H :=
  cbn [snd log] in H; rewrite <- ?app_assoc in H;
  first [ rewrite skipn_length_app in H | rewrite skipn_length_self in H ];
  cbn [app In] in H;
  repeat match type of H with
         | _ \/ _ => destruct H as [H | H]
         | False => destruct H
         end.

Section BuildEnvPartsFacts.
Context {W : Type} (P : platform W).

Lemma make_env_check_calls (dirname : string) (s : state W) (argv : list string) :
  In (CheckCall argv) (trace (make_env P dirname) s) <->
  argv = ["virtualenv"; dirname] /\ path_exists P dirname (world s) = false.
Proof.
  unfold trace, make_env. run.
  destruct (path_exists P dirname (world s)) eqn:Hexists; run.
  - cbn [snd]. rewrite skipn_length_self. split; [intros [] | intros [_ H]; discriminate H].
  - repeat ask_platform; cbn [snd log]; rewrite <- ?app_assoc;
      rewrite skipn_length_app; cbn [app In];
      (split;
       [ intros [H | []]; injection H as <-; now split
       | intros [-> _]; left; reflexivity ]).
Qed.

Lemma make_env_events (dirname : string) (s : state W) (e : event) :
  In e (trace (make_env P dirname) s) -> e = CheckCall ["virtualenv"; dirname].
Proof.
  unfold trace, make_env. run.
  destruct (path_exists P dirname (world s)) eqn:Hexists; run.
  - cbn [snd]. rewrite skipn_length_self. intros [].
  - repeat ask_platform; intro H; split_in H; now subst.
Qed.

Lemma activate_env_events (dirname : string) (s : state W) (e : event) :
  In e (trace (activate_env P dirname) s) ->
  e = ReadFile (activate_this_file_of P dirname (world s))
  \/ e = ExecScript (activate_this_file_of P dirname (world s)).
Proof.
  unfold trace, activate_env, activate_this_file_of. run.
  repeat ask_platform; intro H; split_in H; subst; auto.
Qed.

Lemma upgrade_pip_check_calls (s : state W) (argv : list string) :
  In (CheckCall argv) (trace (upgrade_pip P) s) <->
  argv = ["pip"; "install"; "--upgrade"; "pip"]
  /\ exists v, get_distribution_version P "pip" (world s) = Some v
               /\ LooseVersion.lt v "1.5.4" = Some true.
Proof.
  unfold trace, upgrade_pip. run.
  destruct (get_distribution_version P "pip" (world s)) as [v|] eqn:Hpip; run.
  - destruct (LooseVersion.lt v "1.5.4") as [[|]|] eqn:Hlt; run.
    + repeat ask_platform;
        (split;
         [ intro H; split_in H; try discriminate H; injection H as <-;
           split; [reflexivity | exists v; now split]
         | intros [-> _]; cbn [snd log]; rewrite <- ?app_assoc;
           rewrite skipn_length_app; right; left; reflexivity ]).
    + split.
      * intro H. split_in H.
      * intros [_ (v' & Hv' & Hlt')]. injection Hv' as <-.
        rewrite Hlt in Hlt'. discriminate Hlt'.
    + split.
      * intro H. split_in H.
      * intros [_ (v' & Hv' & Hlt')]. injection Hv' as <-.
        rewrite Hlt in Hlt'. discriminate Hlt'.
  - split.
    + intro H. split_in H.
    + intros [_ (v' & Hv' & _)]. discriminate Hv'.
Qed.

Lemma upgrade_distribute_check_calls (s : state W) (argv : list string) :
  In (CheckCall argv) (trace (upgrade_distribute P) s) <->
  argv = ["pip"; "install"; "--upgrade"; "distribute"]
  /\ exists v, get_distribution_version P "distribute" (world s) = Some v
               /\ LooseVersion.le v "0.6.24" = Some true.
Proof.
  unfold trace, upgrade_distribute. run.
  destruct (get_distribution_version P "distribute" (world s)) as [v|] eqn:Hdist; run.
  - destruct (LooseVersion.le v "0.6.24") as [[|]|] eqn:Hle; run.
    + repeat ask_platform;
        (split;
         [ intro H; split_in H; try discriminate H; injection H as <-;
           split; [reflexivity | exists v; now split]
         | intros [-> _]; cbn [snd log]; rewrite <- ?app_assoc;
           rewrite skipn_length_app; right; left; reflexivity ]).
    + split.
      * intro H. split_in H.
      * intros [_ (v' & Hv' & Hle')]. injection Hv' as <-.
        rewrite Hle in Hle'. discriminate Hle'.
    + split.
      * intro H. split_in H.
      * intros [_ (v' & Hv' & Hle')]. injection Hv' as <-.
        rewrite Hle in Hle'. discriminate Hle'.
  - split.
    + intro H. split_in H.
    + intros [_ (v' & Hv' & _)]. discriminate Hv'.
Qed.

Lemma pip_install_check_calls (package : string) (commit min_version : option string)
    (s : state W) (argv : list string) :
  In (CheckCall argv) (trace (pip_install P package commit min_version) s) ->
  argv = ["pip"; "install"; resolved_package package commit].
Proof.
  unfold trace, pip_install, already_installed.
  destruct min_version as [[|c r]|]; run;
    repeat ask; intro H; split_in H; try discriminate H; now injection H as <-.
Qed.

Lemma install_doc_tools_check_calls (s : state W) (argv : list string) :
  In (CheckCall argv) (trace (install_doc_tools P) s) ->
  argv = ["pip"; "install"; "breathe"] \/ argv = ["pip"; "install"; "sphinx"].
Proof.
  unfold install_doc_tools. intro H.
  apply in_trace_bind in H; auto with appends.
  destruct H as [H | (a & s' & _ & H)];
    apply pip_install_check_calls in H; [left | right]; exact H.
Qed.

End BuildEnvPartsFacts.

Section BuildEnvFacts.
Context {W : Type} (P : platform W).

Lemma appends_env_ready (dirname : string) :
  appends (make_env P dirname ;; activate_env P dirname).
Proof. repeat appends_step. Qed.

Lemma appends_env_pip_checked (dirname : string) :
  appends (make_env P dirname ;; activate_env P dirname ;; upgrade_pip P).
Proof. repeat appends_step. Qed.

Lemma appends_after_pip : appends (upgrade_distribute P ;; install_doc_tools P).
Proof. repeat appends_step. Qed.

(** [create_build_env] with the binds grouped after the activation, and
    after the check of pip. *)
Lemma create_build_env_from_activation (dirname : string) (s : state W) :
  create_build_env P dirname s =
  ((make_env P dirname ;; activate_env P dirname) ;; install_tools P)%py s.
Proof. rewrite create_build_env_parts. symmetry. apply bind_assoc. Qed.

Lemma create_build_env_from_pip_check (dirname : string) (s : state W) :
  create_build_env P dirname s =
  ((make_env P dirname ;; activate_env P dirname ;; upgrade_pip P) ;;
   (upgrade_distribute P ;; install_doc_tools P))%py s.
Proof.
  rewrite create_build_env_parts. unfold install_tools.
  rewrite bind_assoc. apply bind_ext; [reflexivity|].
  intros _ s'. symmetry. apply bind_assoc.
Qed.

Lemma env_ready_check_calls (dirname : string) (s : state W) (argv : list string) :
  In (CheckCall argv) (trace (make_env P dirname ;; activate_env P dirname) s) ->
  argv = ["virtualenv"; dirname] /\ path_exists P dirname (world s) = false.
Proof.
  intro H. apply in_trace_bind in H; auto with appends.
  destruct H as [H | (a & s' & _ & H)].
  - now apply make_env_check_calls in H.
  - apply activate_env_events in H. destruct H as [H | H]; discriminate H.
Qed.

Lemma after_pip_check_calls (s : state W) (argv : list string) :
  In (CheckCall argv) (trace (upgrade_distribute P ;; install_doc_tools P) s) ->
  In argv [["pip"; "install"; "--upgrade"; "distribute"];
           ["pip"; "install"; "breathe"]; ["pip"; "install"; "sphinx"]].
Proof.
  intro H. apply in_trace_bind in H; auto with appends.
  destruct H as [H | (a & s' & _ & H)].
  - apply upgrade_distribute_check_calls in H. left. symmetry. apply H.
  - apply install_doc_tools_check_calls in H.
    destruct H as [-> | ->]; cbn; auto.
Qed.

Lemma install_tools_check_calls (s : state W) (argv : list string) :
  In (CheckCall argv) (trace (install_tools P) s) ->
  In argv [["pip"; "install"; "--upgrade"; "pip"];
           ["pip"; "install"; "--upgrade"; "distribute"];
           ["pip"; "install"; "breathe"]; ["pip"; "install"; "sphinx"]].
Proof.
  unfold install_tools. intro H.
  apply in_trace_bind in H; auto using appends_upgrade_pip, appends_after_pip.
  destruct H as [H | (a & s' & _ & H)].
  - apply upgrade_pip_check_calls in H. left. symmetry. apply H.
  - right. now apply after_pip_check_calls in H.
Qed.

End BuildEnvFacts.

(** X10: the only processes create_build_env ever starts are virtualenv for
    its directory and four pip commands: the upgrades of pip and distribute
    and the installations of breathe and sphinx. *)
Theorem create_build_env_processes {W} (P : platform W) (dirname : string) (s : state W) :
  forall argv,
    In (CheckCall argv) (trace (create_build_env P dirname) s) ->
    In argv [["virtualenv"; dirname];
             ["pip"; "install"; "--upgrade"; "pip"];
             ["pip"; "install"; "--upgrade"; "distribute"];
             ["pip"; "install"; "breathe"]; ["pip"; "install"; "sphinx"]].
Proof.
  intros argv H.
  rewrite (trace_ext _ _ _ (create_build_env_from_activation P dirname s)) in H.
  apply in_trace_bind in H;
    auto using appends_env_ready, appends_install_tools.
  destruct H as [H | (a & s' & _ & H)].
  - apply env_ready_check_calls in H. left. symmetry. apply H.
  - right. now apply install_tools_check_calls in H.
Qed.

(** X11: create_build_env runs virtualenv exactly when the directory does not
    exist, and then as the first thing it does. *)
Theorem virtualenv_created_iff_missing {W} (P : platform W) (dirname : string)
    (s : state W) :
  (In (CheckCall ["virtualenv"; dirname]) (trace (create_build_env P dirname) s) <->
   path_exists P dirname (world s) = false)
  /\ (path_exists P dirname (world s) = false ->
      hd_error (trace (create_build_env P dirname) s) = Some (CheckCall ["virtualenv"; dirname])).
Proof.
  rewrite (trace_ext _ _ _ (create_build_env_from_activation P dirname s)).
  assert (Hfirst : path_exists P dirname (world s) = false ->
            exists t, trace (make_env P dirname) s = CheckCall ["virtualenv"; dirname] :: t).
  { intro Hmissing. unfold trace, make_env. run. rewrite Hmissing. run.
    repeat ask_platform; cbn [snd log]; rewrite <- ?app_assoc;
      rewrite skipn_length_app; eexists; reflexivity. }
  split; [split|].
  - intro H.
    apply in_trace_bind in H; auto using appends_env_ready, appends_install_tools.
    destruct H as [H | (a & s' & _ & H)].
    + now apply env_ready_check_calls in H.
    + apply install_tools_check_calls in H. cbn [In] in H.
      repeat match goal with
             | H : _ \/ _ |- _ => destruct H as [H | H]
             | H : False |- _ => destruct H
             | H : _ = _ :: _ |- _ => discriminate H
             end.
  - intro Hmissing.
    apply in_trace_bind; auto using appends_env_ready, appends_install_tools.
    left. apply in_trace_bind; auto with appends.
    left. apply make_env_check_calls. now split.
  - intro Hmissing. destruct (Hfirst Hmissing) as [t Ht].
    rewrite trace_bind; auto using appends_env_ready, appends_install_tools.
    rewrite (trace_bind (make_env P dirname)); auto with appends.
    rewrite Ht. reflexivity.
Qed.

(** X12: when the directory is missing and virtualenv exits with a non-zero
    status, create_build_env raises CalledProcessError for it and does
    nothing more: no activation, no pip. *)
Theorem virtualenv_failure_is_fatal {W} (P : platform W) (dirname : string)
    (s : state W) (rc : Z) (w1 : W) :
  path_exists P dirname (world s) = false ->
  launch_error P ["virtualenv"; dirname] (world s) = None ->
  run_process P ["virtualenv"; dirname] None (world s) = (rc, w1) ->
  rc <> 0%Z ->
  create_build_env P dirname s =
    (Raise (CalledProcessError rc ["virtualenv"; dirname]),
     {| versions := versions s; world := w1;
        log := log s ++ [CheckCall ["virtualenv"; dirname]] |}).
Proof.
  intros Hmissing Hlaunch Hrun Hrc.
  unfold create_build_env. run. rewrite Hmissing. run.
  rewrite Hlaunch. run. rewrite Hrun. run.
  apply Z.eqb_neq in Hrc. rewrite Hrc. run. reflexivity.
Qed.

(** X13: when the activation script cannot be opened, create_build_env raises
    the OSError of the open: the script is not executed and no distribution
    is looked up or installed. *)
Theorem missing_activation_script_is_fatal {W} (P : platform W) (dirname : string)
    (s s1 : state W) (errno : Z) :
  make_env P dirname s = (Return tt, s1) ->
  read_file P (activate_this_file_of P dirname (world s1)) (world s1) = inl errno ->
  create_build_env P dirname s =
    (Raise (OSError errno),
     {| versions := versions s1; world := world s1;
        log := log s1 ++ [ReadFile (activate_this_file_of P dirname (world s1))] |}).
Proof.
  intros Hmake Hread. rewrite create_build_env_parts.
  unfold bind at 1. rewrite Hmake.
  unfold activate_env, activate_this_file_of in *. run. rewrite Hread. run.
  reflexivity.
Qed.

(** X14: when no pip distribution is found after the activation,
    create_build_env raises DistributionNotFound: nothing catches it there. *)
Theorem missing_pip_is_fatal {W} (P : platform W) (dirname : string) (s s1 : state W) :
  (make_env P dirname ;; activate_env P dirname)%py s = (Return tt, s1) ->
  get_distribution_version P "pip" (world s1) = None ->
  create_build_env P dirname s = (Raise DistributionNotFound, s1).
Proof.
  intros Hready Hpip. rewrite create_build_env_from_activation.
  unfold bind at 1. rewrite Hready.
  unfold install_tools, upgrade_pip. run. rewrite Hpip. run. reflexivity.
Qed.

(** X15: a missing distribute distribution is ignored: when pip is recent
    enough and distribute is not found, create_build_env goes on to the
    installation of breathe and sphinx, with nothing printed or started for
    distribute. *)
Theorem missing_distribute_is_ignored {W} (P : platform W) (dirname : string)
    (s s1 : state W) (pip_version : string) :
  (make_env P dirname ;; activate_env P dirname)%py s = (Return tt, s1) ->
  get_distribution_version P "pip" (world s1) = Some pip_version ->
  LooseVersion.lt pip_version "1.5.4" = Some false ->
  get_distribution_version P "distribute" (world s1) = None ->
  create_build_env P dirname s = install_doc_tools P s1.
Proof.
  intros Hready Hpip Hlt Hdist. rewrite create_build_env_from_activation.
  unfold bind at 1. rewrite Hready.
  unfold install_tools, upgrade_pip, upgrade_distribute. run.
  rewrite Hpip. run. rewrite Hlt. run. rewrite Hdist. run.
  destruct s1; reflexivity.
Qed.

Ltac appends_all := solve [intros; cbv beta; repeat (appends_step; cbv beta)].

Ltac refute_in H :=
  cbn [In] in H;
  repeat match type of H with
         | _ \/ _ => destruct H as [H | H]
         | False => destruct H
         | _ = _ => discriminate H
         | _ /\ _ => let H' := fresh in destruct H as [H H']
         end.

(** X16: on an existing environment whose activation succeeds, with pip at
    least 1.5.4, no distribute, breathe at least 4.15.0 and sphinx at least
    3.1.0, create_build_env starts no process at all: it reads and executes
    the activation script, prints the two already-installed lines and
    returns. *)
Theorem provisioned_env_starts_no_process {W} (P : platform W) (dirname : string)
    (s : state W) (source : string) (w1 : W)
    (pip_version breathe_version sphinx_version : string) :
  let f := activate_this_file_of P dirname (world s) in
  path_exists P dirname (world s) = true ->
  read_file P f (world s) = inr source ->
  exec_script P source f (world s) = (None, w1) ->
  get_distribution_version P "pip" w1 = Some pip_version ->
  LooseVersion.lt pip_version "1.5.4" = Some false ->
  get_distribution_version P "distribute" w1 = None ->
  get_distribution_version P "breathe" w1 = Some breathe_version ->
  LooseVersion.ge breathe_version "4.15.0" = Some true ->
  get_distribution_version P "sphinx" w1 = Some sphinx_version ->
  LooseVersion.ge sphinx_version "3.1.0" = Some true ->
  create_build_env P dirname s =
    (Return tt,
     {| versions := versions s; world := w1;
        log := log s ++ [ReadFile f; ExecScript f;
                         Print "breathe 4.15.0 already installed";
                         Print "sphinx 3.1.0 already installed"] |}).
Proof.
  intros f Hexists Hread Hexec Hpip Hlt Hdist Hbreathe Hbge Hsphinx Hsge.
  subst f. unfold_build_env. run. rewrite Hexists. run.
  rewrite Hread. run. rewrite Hexec. run.
  rewrite Hpip. run. rewrite Hlt. run. rewrite Hdist. run.
  change (Path.basename "breathe") with "breathe". rewrite Hbreathe. run.
  rewrite Hbge. run.
  change (Path.basename "sphinx") with "sphinx". rewrite Hsphinx. run.
  rewrite Hsge. run.
  rewrite <- !app_assoc. reflexivity.
Qed.

(** X17: after the activation, create_build_env upgrades pip exactly when
    the installed pip compares strictly below 1.5.4 (so pip 1.5.4 itself is
    left alone). *)
Theorem pip_upgraded_iff_older {W} (P : platform W) (dirname : string)
    (s s1 : state W) :
  (make_env P dirname ;; activate_env P dirname)%py s = (Return tt, s1) ->
  In (CheckCall ["pip"; "install"; "--upgrade"; "pip"])
     (trace (create_build_env P dirname) s) <->
  exists v, get_distribution_version P "pip" (world s1) = Some v
            /\ LooseVersion.lt v "1.5.4" = Some true.
Proof.
  intro Hready.
  rewrite (trace_ext _ _ _ (create_build_env_from_activation P dirname s)).
  split.
  - intro H.
    apply in_trace_bind in H; [|appends_all..].
    destruct H as [H | (a & s' & Heq & H)].
    + apply env_ready_check_calls in H. destruct H as [H _]. discriminate H.
    + rewrite Hready in Heq. injection Heq as _ <-.
      unfold install_tools in H.
      apply in_trace_bind in H; [|appends_all..].
      destruct H as [H | (a' & s'' & _ & H)].
      * now apply upgrade_pip_check_calls in H.
      * apply after_pip_check_calls in H. refute_in H.
  - intro Hold.
    apply in_trace_bind; [appends_all..|].
    right. exists tt, s1. split; [exact Hready|].
    unfold install_tools. apply in_trace_bind; [appends_all..|].
    left. apply upgrade_pip_check_calls. now split.
Qed.

Lemma env_pip_checked_check_calls {W} (P : platform W) (dirname : string)
    (s : state W) (argv : list string) :
  In (CheckCall argv)
     (trace (make_env P dirname ;; activate_env P dirname ;; upgrade_pip P) s) ->
  argv = ["virtualenv"; dirname] \/ argv = ["pip"; "install"; "--upgrade"; "pip"].
Proof.
  intro H.
  apply in_trace_bind in H; [|appends_all..].
  destruct H as [H | (a & s' & _ & H)].
  - left. now apply make_env_check_calls in H.
  - apply in_trace_bind in H; [|appends_all..].
    destruct H as [H | (a' & s'' & _ & H)].
    + apply activate_env_events in H. destruct H as [H | H]; discriminate H.
    + right. now apply upgrade_pip_check_calls in H.
Qed.

(** X18: once pip has been checked, create_build_env upgrades distribute
    exactly when a distribute distribution is installed and compares at most
    0.6.24 (so distribute 0.6.24 itself is upgraded). *)
Theorem distribute_upgraded_iff_old {W} (P : platform W) (dirname : string)
    (s s2 : state W) :
  (make_env P dirname ;; activate_env P dirname ;; upgrade_pip P)%py s = (Return tt, s2) ->
  In (CheckCall ["pip"; "install"; "--upgrade"; "distribute"])
     (trace (create_build_env P dirname) s) <->
  exists v, get_distribution_version P "distribute" (world s2) = Some v
            /\ LooseVersion.le v "0.6.24" = Some true.
Proof.
  intro Hchecked.
  rewrite (trace_ext _ _ _ (create_build_env_from_pip_check P dirname s)).
  split.
  - intro H.
    apply in_trace_bind in H; [|appends_all..].
    destruct H as [H | (a & s' & Heq & H)].
    + apply env_pip_checked_check_calls in H. destruct H as [H | H]; discriminate H.
    + rewrite Hchecked in Heq. injection Heq as _ <-.
      apply in_trace_bind in H; [|appends_all..].
      destruct H as [H | (a' & s'' & _ & H)].
      * now apply upgrade_distribute_check_calls in H.
      * apply install_doc_tools_check_calls in H.
        destruct H as [H | H]; discriminate H.
  - intro Hold.
    apply in_trace_bind; [appends_all..|].
    right. exists tt, s2. split; [exact Hchecked|].
    apply in_trace_bind; [appends_all..|].
    left. apply upgrade_distribute_check_calls. now split.
Qed.

(** ** More on the entry point *)

(** X19: started with fewer than two arguments, the script raises IndexError
    (exit status 1) only after create_build_env has run to its end: the
    environment has been provisioned, and build_docs is not entered. *)
Theorem main_missing_arguments {W} (P : platform W) (argv : list string)
    (s0 s1 : state W) :
  create_build_env P "virtualenv" s0 = (Return tt, s1) ->
  List.length argv < 3 ->
  main P argv s0 = (Raise IndexError, s1)
  /\ exit_status (fst (main P argv s0)) = 1%Z.
Proof.
  intros Henv Hlen.
  assert (Hmain : main P argv s0 = (Raise IndexError, s1)).
  { unfold main. unfold bind at 1. rewrite Henv.
    destruct argv as [|a0 [|a1 [|a2 rest]]]; cbn in Hlen; try lia; reflexivity. }
  split; [exact Hmain | now rewrite Hmain].
Qed.

(** X20: when create_build_env raises, the script ends with that exception
    in the state create_build_env left, whatever the arguments: nothing of
    build_docs is run. *)
Theorem main_env_failure {W} (P : platform W) (argv : list string)
    (s0 s1 : state W) (e : exn) :
  create_build_env P "virtualenv" s0 = (Raise e, s1) ->
  main P argv s0 = (Raise e, s1)
  /\ trace (main P argv) s0 = trace (create_build_env P "virtualenv") s0.
Proof.
  intro Henv.
  assert (Hmain : main P argv s0 = (Raise e, s1)).
  { unfold main. unfold bind at 1. now rewrite Henv. }
  split; [exact Hmain|]. unfold trace. now rewrite Hmain, Henv.
Qed.

(** X21: with at least two arguments and a create_build_env that returns,
    a run of the script is the provisioning followed by build_docs: its
    trace is the one of create_build_env followed by the one of build_docs
    (with the default keyword arguments), its exit status is the one of
    build_docs, and arguments after the second are ignored. *)
Theorem main_is_env_then_docs {W} (P : platform W)
    (argv0 sphinx_executable version : string) (rest : list string) (s0 s1 : state W) :
  create_build_env P "virtualenv" s0 = (Return tt, s1) ->
  let docs := build_docs P sphinx_executable version no_kwargs in
  trace (main P (argv0 :: sphinx_executable :: version :: rest)) s0 =
    (trace (create_build_env P "virtualenv") s0 ++ trace docs s1)%list
  /\ exit_status (fst (main P (argv0 :: sphinx_executable :: version :: rest) s0)) =
     exit_status (fst (docs s1))
  /\ snd (main P (argv0 :: sphinx_executable :: version :: rest) s0) = snd (docs s1).
Proof.
  intros Henv docs.
  pose proof (main_after_env P argv0 sphinx_executable version rest s0 s1 Henv) as Hmain.
  fold docs in Hmain.
  pose proof (log_trace docs s1 (appends_build_docs P _ _ _)) as Hdocs.
  pose proof (log_trace (create_build_env P "virtualenv") s0
                (appends_create_build_env P _)) as Hlog.
  rewrite Henv in Hlog. cbn [snd] in Hlog.
  assert (Hsnd : snd (main P (argv0 :: sphinx_executable :: version :: rest) s0)
                 = snd (docs s1)).
  { rewrite Hmain. destruct (docs s1) as [[p|e] s']; reflexivity. }
  split; [|split; [|exact Hsnd]].
  - unfold trace at 1. rewrite Hsnd, Hdocs, Hlog, <- app_assoc.
    apply skipn_length_app.
  - rewrite Hmain. destruct (docs s1) as [[p|e] s']; reflexivity.
Qed.

(** ** More runs on the concrete platforms *)

(** A build in which every tool succeeds. *)
Lemma build_docs_success_witness :
  let r := build_docs (Demo.platform None 0) "sphinx-build" "dev" no_kwargs
             (initial_state Demo.ready) in
  fst r = Return "./html"
  /\ world (snd r) = Demo.touch "./html" Demo.ready
  /\ List.length (log (snd r)) = 4.
Proof.
  cbv zeta.
  rewrite (build_docs_success (Demo.platform None 0) (initial_state Demo.ready)
             "sphinx-build" "dev" no_kwargs Demo.ready
             (Demo.touch "./html" Demo.ready) (Demo.touch "./html" Demo.ready)
             eq_refl eq_refl eq_refl eq_refl eq_refl eq_refl).
  repeat split.
Defined.

(** A build in which sphinx-build exits with status 2. *)
Lemma sphinx_failure_skips_styling_witness :
  let P := Faulty.platform (Faulty.exits "sphinx-build" 2) in
  let r := build_docs P "sphinx-build" "dev" no_kwargs (initial_state Demo.ready) in
  fst r = Raise (CalledProcessError 2
                   (render_cmd P no_kwargs "dev" ["0.1.0"] Demo.ready Demo.ready))
  /\ List.length (log (snd r)) = 3.
Proof.
  cbv zeta.
  rewrite (sphinx_failure_skips_styling (Faulty.platform (Faulty.exits "sphinx-build" 2))
             (initial_state Demo.ready) "sphinx-build" "dev" no_kwargs
             Demo.ready Demo.ready 2 eq_refl eq_refl eq_refl eq_refl
             ltac:(discriminate)).
  split; reflexivity.
Defined.

(** A build in which lessc exits with status 1. *)
Lemma lessc_nonzero_exit_propagates_witness :
  let P := Faulty.platform (Faulty.exits "lessc" 1) in
  let r := build_docs P "sphinx-build" "dev" no_kwargs (initial_state Demo.ready) in
  fst r = Raise (CalledProcessError 1 (lessc_cmd P no_kwargs Demo.ready))
  /\ ~ In (Print lessc_hint) (log (snd r)).
Proof.
  cbv zeta.
  rewrite (lessc_nonzero_exit_propagates (Faulty.platform (Faulty.exits "lessc" 1))
             (initial_state Demo.ready) "sphinx-build" "dev" no_kwargs
             Demo.ready (Demo.touch "./html" Demo.ready) (Demo.touch "./html" Demo.ready) 1
             eq_refl eq_refl eq_refl eq_refl eq_refl eq_refl ltac:(discriminate)).
  split; [reflexivity|].
  cbn [snd log initial_state app firstn build_docs_steps].
  intro H. refute_in H.
Defined.

(** A machine without doxygen. *)
Lemma doxygen_launch_failure_witness :
  let P := Faulty.platform (Faulty.cannot_start "doxygen" ENOENT) in
  build_docs P "sphinx-build" "dev" no_kwargs (initial_state Demo.ready) =
    (Raise (OSError ENOENT),
     {| versions := ["0.1.0"]; world := Demo.ready; log := [PopenStart ["doxygen"; "-"]] |}).
Proof.
  exact (doxygen_launch_failure (Faulty.platform (Faulty.cannot_start "doxygen" ENOENT))
           (initial_state Demo.ready) "sphinx-build" "dev" no_kwargs ENOENT eq_refl).
Defined.

(** Installing sphinx on a machine without it, with a pip that exits with
    status 1. *)
Lemma pip_install_outcome_is_pip_status_witness :
  let P := Faulty.platform (Faulty.exits "pip" 1) in
  fst (pip_install P "sphinx" None (Some "3.1.0") (initial_state Demo.bare))
  = Raise (CalledProcessError 1 ["pip"; "install"; "sphinx"]).
Proof.
  cbv zeta.
  rewrite (pip_install_outcome_is_pip_status (Faulty.platform (Faulty.exits "pip" 1))
             (initial_state Demo.bare) "sphinx" None (Some "3.1.0") 1 Demo.bare
             eq_refl eq_refl eq_refl).
  reflexivity.
Defined.

(** breathe 4.15.0 installed, 4.15.0 asked for. *)
Lemma pip_install_exact_version_skips_witness :
  pip_install (Demo.platform None 0) "breathe" None (Some "4.15.0")
    (initial_state Demo.ready) =
  (Return tt,
   {| versions := ["0.1.0"]; world := Demo.ready;
      log := [Print "breathe 4.15.0 already installed"] |}).
Proof.
  exact (pip_install_exact_version_skips (Demo.platform None 0) (initial_state Demo.ready)
           "breathe" None "4"%char ".15.0" eq_refl).
Defined.

(** breathe 4.15.dev0 installed, 4.15.0 asked for: 'dev' meets 0. *)
Lemma pip_install_incomparable_version_raises_witness :
  let s := initial_state (Faulty.with_env [("breathe", "4.15.dev0")]) in
  pip_install (Demo.platform None 0) "breathe" None (Some "4.15.0") s = (Raise TypeError, s).
Proof.
  exact (pip_install_incomparable_version_raises (Demo.platform None 0)
           (initial_state (Faulty.with_env [("breathe", "4.15.dev0")]))
           "breathe" None "4"%char ".15.0" "4.15.dev0" eq_refl eq_refl).
Defined.

(** On a machine with pip only, create_build_env installs breathe. *)
Lemma create_build_env_processes_witness :
  In (CheckCall ["pip"; "install"; "breathe"])
     (trace (create_build_env (Demo.platform None 0) "virtualenv") (initial_state Demo.bare))
  /\ In ["pip"; "install"; "breathe"]
        [["virtualenv"; "virtualenv"];
         ["pip"; "install"; "--upgrade"; "pip"];
         ["pip"; "install"; "--upgrade"; "distribute"];
         ["pip"; "install"; "breathe"]; ["pip"; "install"; "sphinx"]].
Proof.
  assert (Hin : In (CheckCall ["pip"; "install"; "breathe"])
                  (trace (create_build_env (Demo.platform None 0) "virtualenv")
                     (initial_state Demo.bare))).
  { vm_compute. do 4 right. left. reflexivity. }
  split; [exact Hin|].
  exact (create_build_env_processes (Demo.platform None 0) "virtualenv"
           (initial_state Demo.bare) ["pip"; "install"; "breathe"] Hin).
Defined.

(** A virtualenv that exits with status 1. *)
Lemma virtualenv_failure_is_fatal_witness :
  create_build_env (Faulty.platform (Faulty.exits "virtualenv" 1)) "virtualenv"
    (initial_state Demo.ready) =
  (Raise (CalledProcessError 1 ["virtualenv"; "virtualenv"]),
   {| versions := ["0.1.0"]; world := Demo.ready;
      log := [CheckCall ["virtualenv"; "virtualenv"]] |}).
Proof.
  exact (virtualenv_failure_is_fatal (Faulty.platform (Faulty.exits "virtualenv" 1))
           "virtualenv" (initial_state Demo.ready) 1 Demo.ready
           eq_refl eq_refl eq_refl ltac:(discriminate)).
Defined.

(** An environment without its activation script. *)
Lemma missing_activation_script_is_fatal_witness :
  let P := Faulty.platform (Faulty.no_script ENOENT) in
  let r := create_build_env P "virtualenv" (initial_state Demo.ready) in
  fst r = Raise (OSError ENOENT)
  /\ log (snd r) = [CheckCall ["virtualenv"; "virtualenv"];
                    ReadFile "virtualenv/bin/activate_this.py"].
Proof.
  cbv zeta.
  rewrite (missing_activation_script_is_fatal (Faulty.platform (Faulty.no_script ENOENT))
             "virtualenv" (initial_state Demo.ready)
             (snd (make_env (Faulty.platform (Faulty.no_script ENOENT)) "virtualenv"
                     (initial_state Demo.ready)))
             ENOENT eq_refl eq_refl).
  split; reflexivity.
Defined.

(** An environment in which no pip distribution is found. *)
Lemma missing_pip_is_fatal_witness :
  let P := Demo.platform None 0 in
  fst (create_build_env P "virtualenv" (initial_state (Faulty.with_env [])))
  = Raise DistributionNotFound.
Proof.
  cbv zeta.
  rewrite (missing_pip_is_fatal (Demo.platform None 0) "virtualenv"
             (initial_state (Faulty.with_env []))
             (snd ((make_env (Demo.platform None 0) "virtualenv" ;;
                    activate_env (Demo.platform None 0) "virtualenv")%py
                     (initial_state (Faulty.with_env []))))
             eq_refl eq_refl).
  reflexivity.
Defined.

(** pip 20.0.2 and no distribute: straight to the documentation tools. *)
Lemma missing_distribute_is_ignored_witness :
  let P := Demo.platform None 0 in
  let s := initial_state (Faulty.with_env [("pip", "20.0.2")]) in
  let s1 := snd ((make_env P "virtualenv" ;; activate_env P "virtualenv")%py s) in
  create_build_env P "virtualenv" s = install_doc_tools P s1.
Proof.
  exact (missing_distribute_is_ignored (Demo.platform None 0) "virtualenv"
           (initial_state (Faulty.with_env [("pip", "20.0.2")]))
           (snd ((make_env (Demo.platform None 0) "virtualenv" ;;
                  activate_env (Demo.platform None 0) "virtualenv")%py
                   (initial_state (Faulty.with_env [("pip", "20.0.2")]))))
           "20.0.2" eq_refl eq_refl eq_refl eq_refl).
Defined.

(** A second run on a provisioned machine. *)
Lemma provisioned_env_starts_no_process_witness :
  let w := Faulty.with_env [("pip", "20.0.2"); ("breathe", "4.15.0"); ("sphinx", "3.1.0")] in
  create_build_env (Demo.platform None 0) "virtualenv" (initial_state w) =
  (Return tt,
   {| versions := ["0.1.0"]; world := w;
      log := [ReadFile "virtualenv/bin/activate_this.py";
              ExecScript "virtualenv/bin/activate_this.py";
              Print "breathe 4.15.0 already installed";
              Print "sphinx 3.1.0 already installed"] |}).
Proof.
  exact (provisioned_env_starts_no_process (Demo.platform None 0) "virtualenv"
           (initial_state (Faulty.with_env
              [("pip", "20.0.2"); ("breathe", "4.15.0"); ("sphinx", "3.1.0")]))
           EmptyString
           (Faulty.with_env [("pip", "20.0.2"); ("breathe", "4.15.0"); ("sphinx", "3.1.0")])
           "20.0.2" "4.15.0" "3.1.0"
           eq_refl eq_refl eq_refl eq_refl eq_refl eq_refl eq_refl eq_refl eq_refl eq_refl).
Defined.

(** pip 1.5.3 is upgraded, pip 1.5.4 is not. *)
Lemma pip_upgraded_iff_older_witness :
  let P := Demo.platform None 0 in
  let upgrade := CheckCall ["pip"; "install"; "--upgrade"; "pip"] in
  In upgrade (trace (create_build_env P "virtualenv")
                (initial_state (Faulty.with_env [("pip", "1.5.3")])))
  /\ ~ In upgrade (trace (create_build_env P "virtualenv")
                     (initial_state (Faulty.with_env [("pip", "1.5.4")]))).
Proof.
  intros P upgrade. split.
  - apply (pip_upgraded_iff_older P "virtualenv"
             (initial_state (Faulty.with_env [("pip", "1.5.3")]))
             (snd ((make_env P "virtualenv" ;; activate_env P "virtualenv")%py
                     (initial_state (Faulty.with_env [("pip", "1.5.3")]))))
             eq_refl).
    exists "1.5.3". split; reflexivity.
  - intro Hin.
    apply (pip_upgraded_iff_older P "virtualenv"
             (initial_state (Faulty.with_env [("pip", "1.5.4")]))
             (snd ((make_env P "virtualenv" ;; activate_env P "virtualenv")%py
                     (initial_state (Faulty.with_env [("pip", "1.5.4")]))))
             eq_refl) in Hin.
    destruct Hin as (v & Hv & Hlt). vm_compute in Hv. injection Hv as <-.
    vm_compute in Hlt. discriminate Hlt.
Defined.

(** distribute 0.6.24 is upgraded. *)
Lemma distribute_upgraded_iff_old_witness :
  let P := Demo.platform None 0 in
  In (CheckCall ["pip"; "install"; "--upgrade"; "distribute"])
     (trace (create_build_env P "virtualenv")
        (initial_state (Faulty.with_env [("pip", "20.0.2"); ("distribute", "0.6.24")]))).
Proof.
  intro P.
  apply (distribute_upgraded_iff_old P "virtualenv"
           (initial_state (Faulty.with_env [("pip", "20.0.2"); ("distribute", "0.6.24")]))
           (snd ((make_env P "virtualenv" ;; activate_env P "virtualenv" ;;
                  upgrade_pip P)%py
                   (initial_state
                      (Faulty.with_env [("pip", "20.0.2"); ("distribute", "0.6.24")]))))
           eq_refl).
  exists "0.6.24". split; reflexivity.
Defined.

(** The script started without arguments on a provisioned machine. *)
Lemma main_missing_arguments_witness :
  let P := Demo.platform None 0 in
  let r := main P ["build.py"] (initial_state Demo.ready) in
  fst r = Raise IndexError
  /\ In (CheckCall ["virtualenv"; "virtualenv"]) (log (snd r))
  /\ exit_status (fst r) = 1%Z.
Proof.
  intros P r.
  destruct (main_missing_arguments P ["build.py"] (initial_state Demo.ready)
              (snd (create_build_env P "virtualenv" (initial_state Demo.ready)))
              eq_refl ltac:(cbn; lia)) as [Hmain Hexit].
  subst r. rewrite Hmain. split; [reflexivity|]. split.
  - vm_compute. left. reflexivity.
  - rewrite Hmain in Hexit. exact Hexit.
Defined.

(** The script on a machine whose virtualenv fails. *)
Lemma main_env_failure_witness :
  let P := Faulty.platform (Faulty.exits "virtualenv" 1) in
  fst (main P ["build.py"; "sphinx-build"; "dev"] (initial_state Demo.ready))
  = Raise (CalledProcessError 1 ["virtualenv"; "virtualenv"]).
Proof.
  intro P.
  destruct (main_env_failure P ["build.py"; "sphinx-build"; "dev"] (initial_state Demo.ready)
              (snd (create_build_env P "virtualenv" (initial_state Demo.ready)))
              (CalledProcessError 1 ["virtualenv"; "virtualenv"]) eq_refl) as [Hmain _].
  rewrite Hmain. reflexivity.
Defined.

(** The script with a third argument, on a provisioned machine. *)
Lemma main_is_env_then_docs_witness :
  let P := Demo.platform None 0 in
  let s0 := initial_state Demo.ready in
  let s1 := snd (create_build_env P "virtualenv" s0) in
  trace (main P ["build.py"; "sphinx-build"; "dev"; "--fast"]) s0 =
    (trace (create_build_env P "virtualenv") s0
     ++ trace (build_docs P "sphinx-build" "dev" no_kwargs) s1)%list
  /\ exit_status (fst (main P ["build.py"; "sphinx-build"; "dev"; "--fast"] s0)) = 0%Z.
Proof.
  intros P s0 s1.
  destruct (main_is_env_then_docs P "build.py" "sphinx-build" "dev" ["--fast"] s0 s1 eq_refl)
    as (Htrace & Hexit & _).
  split; [exact Htrace|]. rewrite Hexit. reflexivity.
Defined.
